(** * gh-threads: the decision engine, the team cache and the run loop

    A shallow embedding of the TypeScript sources

      - [types.ts]                 the data model,
      - [notification-filters.ts]  the rule set and its composition,
      - [cache.ts]                 the per-user team cache,
      - [notification-processor.ts] the orchestrator,

    followed by the properties of the written specification that concern
    them.  Strings are [string]; JavaScript numbers that hold identifiers
    or epoch milliseconds are [Z] (exact below 2^53); arrays are lists;
    an optional or nullable value is an [option]. *)

From Stdlib Require Import Ascii String ZArith List Bool Lia Permutation.
From stdpp Require Import base option gmap strings pretty.
Import ListNotations.

Local Open Scope string_scope.
Local Open Scope Z_scope.

(** ** Data model ([types.ts]) *)

(** [{ login: string; id: number }], the shape of [user], of the entries
    of [requested_reviewers] and of [assignees]. *)
Record Account := mkAccount {
  login : string;
  account_id : Z
}.

(** An entry of [requested_teams]: [{ name: string; id: number }]. *)
Record RequestedTeam := mkRequestedTeam {
  rt_name : string;
  rt_id : Z
}.

(** [state: 'open' | 'closed'] *)
Inductive PRState := open | closed.

Definition PRState_eqb (a b : PRState) : bool :=
  match a, b with
  | open, open | closed, closed => true
  | _, _ => false
  end.

(** [interface PullRequestDetails], field for field. *)
Record PullRequestDetails := mkPullRequestDetails {
  pr_id : Z;
  number : Z;
  state : PRState;
  merged : bool;
  merged_at : option string;
  closed_at : option string;
  user : Account;
  requested_reviewers : list Account;
  requested_teams : list RequestedTeam;
  assignees : list Account
}.

(** The object the filters receive at run time.  It is the API payload,
    cast with [data as PullRequestDetails] and never checked: it has the
    declared fields and, beside them, whatever else the API sent.
    [RenovatePRFilter] reads one such undeclared property,
    [prDetails.user.type]; [user_type] is its value, [None] when the
    object has no such property (the read gives [undefined]).  A value
    that is not a string compares unequal to ["Bot"] like any other
    string and is not distinguished. *)
Record PullRequestPayload := mkPayload {
  details :> PullRequestDetails;
  user_type : option string
}.

(** A value of exactly the declared interface, seen as a payload. *)
Definition of_declared (d : PullRequestDetails) : PullRequestPayload :=
  {| details := d; user_type := None |}.

(** [interface GitHubTeam] *)
Record Organization := mkOrganization {
  org_login : string;
  org_id : Z
}.

Record GitHubTeam := mkGitHubTeam {
  team_id : Z;
  name : string;
  slug : string;
  organization : Organization
}.

(** [interface GitHubNotification] *)
Record Subject := mkSubject {
  title : string;
  subject_url : string;
  latest_comment_url : string;
  type : string
}.

Record Repository := mkRepository {
  repo_id : Z;
  repo_name : string;
  full_name : string;
  owner : Account
}.

Record GitHubNotification := mkGitHubNotification {
  id : string;
  unread : bool;
  reason : string;
  updated_at : string;
  last_read_at : option string;
  subject : Subject;
  repository : Repository;
  url : string;
  subscription_url : string
}.

(** [interface NotificationFilter]: one method,
    [shouldMarkAsDone(notification, prDetails?)].  A filter object is its
    method; the optional argument is an [option]. *)
Definition NotificationFilter : Type :=
  GitHubNotification -> option PullRequestPayload -> bool.

(** The accessor [() => this.userTeams] handed to each filter is called
    afresh in every decision; its result at that moment is the argument
    [userTeams : option (list GitHubTeam)], [None] for [null]. *)

(** The teams the accessor yields, none while it still yields [null]. *)
Definition snapshot (userTeams : option (list GitHubTeam)) : list GitHubTeam :=
  match userTeams with
  | Some teams => teams
  | None => []
  end.

(** [xs.some(x => x.login === currentUser)] *)
Definition some_login (currentUser : string) (xs : list Account) : bool :=
  existsb (fun a => String.eqb (login a) currentUser) xs.

(** ** The rule set ([notification-filters.ts])

    Every rule logs why it answers as it does.  The log plays no part in
    the answer, and the rules are embedded as the boolean functions they
    compute, one [if] for each early [return]. *)

Module MergedClosedPRFilter.

(** The callback of the inner [some]: [userTeam.name === requestedTeam.name
    || userTeam.slug === requestedTeam.name]. *)
Definition teamMatches (requestedTeam : RequestedTeam) (userTeam : GitHubTeam) : bool :=
  String.eqb (name userTeam) (rt_name requestedTeam)
  || String.eqb (slug userTeam) (rt_name requestedTeam).

(** The local constant [isTeamReviewer]. *)
Definition isTeamReviewer (userTeams : list GitHubTeam) (prDetails : PullRequestDetails) : bool :=
  existsb (fun requestedTeam => existsb (teamMatches requestedTeam) userTeams)
          (requested_teams prDetails).

Definition isDirectReviewer (currentUser : string)
    (userTeams : option (list GitHubTeam)) (prDetails : PullRequestDetails) : bool :=
  let isRequestedReviewer := some_login currentUser (requested_reviewers prDetails) in
  if isRequestedReviewer then true
  else
    match userTeams with
    | Some teams => if isTeamReviewer teams prDetails then true else false
    | None => false
    end.

Definition shouldMarkAsDone (currentUser : string)
    (userTeams : option (list GitHubTeam)) : NotificationFilter :=
  fun notification prDetails =>
    if negb (String.eqb (type (subject notification)) "PullRequest") then false
    else
      match prDetails with
      | None => false
      | Some prDetails =>
          let isMergedOrClosed :=
            PRState_eqb (state prDetails) closed || Bool.eqb (merged prDetails) true in
          if negb isMergedOrClosed then false
          else if isDirectReviewer currentUser userTeams prDetails then false
          else
            let isAuthor := String.eqb (login (user prDetails)) currentUser in
            if isAuthor then false
            else
              let isAssigned := some_login currentUser (assignees prDetails) in
              if isAssigned then false else true
      end.

End MergedClosedPRFilter.

Module RenovatePRFilter.

(** [prDetails.user.type === "Bot"] *)
Definition type_is_Bot (prDetails : PullRequestPayload) : bool :=
  match user_type prDetails with
  | Some t => String.eqb t "Bot"
  | None => false
  end.

Definition isDirectReviewer (currentUser : string) (prDetails : PullRequestDetails) : bool :=
  let isRequestedReviewer := some_login currentUser (requested_reviewers prDetails) in
  if isRequestedReviewer then true else false.

(** The rule receives the team accessor like its sibling and never
    calls it; [userTeams] is kept as an argument for that reason. *)
Definition shouldMarkAsDone (currentUser : string)
    (userTeams : option (list GitHubTeam)) : NotificationFilter :=
  fun notification prDetails =>
    if negb (String.eqb (type (subject notification)) "PullRequest") then false
    else
      match prDetails with
      | None => false
      | Some prDetails =>
          let isRenovatePR :=
            String.eqb (login (user prDetails)) "renovate-sh-app[bot]"
            && type_is_Bot prDetails in
          if negb isRenovatePR then false
          else if isDirectReviewer currentUser prDetails then false
          else
            let isAuthor := String.eqb (login (user prDetails)) currentUser in
            if isAuthor then false
            else
              let isAssigned := some_login currentUser (assignees prDetails) in
              if isAssigned then false else true
      end.

End RenovatePRFilter.

Module CompositeFilter.

(** The [for ... of] loop with its early [return true]. *)
Fixpoint shouldMarkAsDone (filters : list NotificationFilter) : NotificationFilter :=
  fun notification prDetails =>
    match filters with
    | [] => false
    | filter :: rest =>
        if filter notification prDetails then true
        else shouldMarkAsDone rest notification prDetails
    end.

End CompositeFilter.

(** The composite the processor builds in its constructor:
    [new CompositeFilter([prFilter, renovateFilter], logger)]. *)
Definition processorFilter (currentUser : string)
    (userTeams : option (list GitHubTeam)) : NotificationFilter :=
  CompositeFilter.shouldMarkAsDone
    [ MergedClosedPRFilter.shouldMarkAsDone currentUser userTeams;
      RenovatePRFilter.shouldMarkAsDone currentUser userTeams ].

(** ** Completions

    An [async] method settles its promise either way; a synchronous
    statement completes normally or throws.  [Thrown] carries the error's
    message. *)

Inductive Completion (A : Type) : Type :=
| Returned (a : A)
| Thrown (message : string).
Arguments Returned {A} a.
Arguments Thrown {A} message.

Definition bind {A B : Type} (c : Completion A) (k : A -> Completion B) : Completion B :=
  match c with
  | Returned a => k a
  | Thrown e => Thrown e
  end.

Notation "'let*' x ':=' c 'in' k" := (bind c (fun x => k))
  (at level 10, x name, c at level 100, k at level 200).

(** [try { body } catch (error) { handler }] *)
Definition try_catch {A : Type} (body : Completion A) (handler : string -> Completion A)
    : Completion A :=
  match body with
  | Returned a => Returned a
  | Thrown e => handler e
  end.

(** ** The team cache ([cache.ts])

    The cache directory is a finite map from paths to files.  As with the
    rules, the manager's log entries are left out. *)

(** [interface TeamCache] *)
Record TeamCache := mkTeamCache {
  teams : list GitHubTeam;
  timestamp : Z;
  username : string
}.

(** What [fs.readJson] resolves to is [JSON.parse] of the file's text,
    cast with [as TeamCache] and never checked.  The embedding keeps what
    the method looks at: whether the value is [null] (reading a property
    of it throws) and otherwise, for each of the three properties, whether
    the value has it.  A property that is present has its declared type;
    an absent one reads as [undefined].  Any other JSON value than an
    object (a number, a string, an array) has none of the three and is
    the object with all of them absent. *)
Record JsonObject := mkJsonObject {
  json_teams : option (list GitHubTeam);
  json_timestamp : option Z;
  json_username : option string
}.

Inductive JsonValue :=
| JsonNull
| JsonObj (o : JsonObject).

(** The value [JSON.parse] gives for the text [writeJson] produces from a
    [TeamCache]. *)
Definition to_json (c : TeamCache) : JsonValue :=
  JsonObj {| json_teams := Some (teams c);
             json_timestamp := Some (timestamp c);
             json_username := Some (username c) |}.

(** A file of the cache directory, as the reader meets it. *)
Inductive CacheFile :=
| Unreadable                  (* exists; reading it fails (permissions, I/O) *)
| Unparsable                  (* readable; its text is not JSON *)
| Parsed (data : JsonValue).  (* readable JSON *)

(** The numbers the expiry test computes with.  [now - undefined] is
    [NaN], and every ordered comparison with [NaN] is [false]. *)
Inductive JsNumber :=
| Finite (z : Z)
| NaN.

Definition js_sub (a : Z) (b : option Z) : JsNumber :=
  match b with
  | Some b => Finite (a - b)
  | None => NaN
  end.

Definition js_gt (a : JsNumber) (b : Z) : bool :=
  match a with
  | Finite a => a >? b
  | NaN => false
  end.

(** [a !== b] for a property read [a] and a string [b]. *)
Definition js_strict_ne (a : option string) (b : string) : bool :=
  match a with
  | Some a => negb (String.eqb a b)
  | None => true
  end.

(** How a call that changes the disk settles.  Whether it succeeds is
    not decided by the files the map records (permissions, space, the
    device), so it is given from outside; a call that fails may leave
    anything at the path it was about, [residue], or nothing. *)
Inductive Settled :=
| Done
| Failed (message : string) (residue : option CacheFile).

Record DiskIO := mkDiskIO {
  ensureDir : Completion unit;
  writeJson : Settled;
  remove : Settled
}.

Definition put_file (p : string) (file : option CacheFile) (fs : gmap string CacheFile)
    : gmap string CacheFile :=
  match file with
  | Some file => <[p := file]> fs
  | None => delete p fs
  end.

Module TeamCacheManager.

Record t := mk {
  cacheDir : string;
  cacheTTL : Z      (* milliseconds *)
}.

(** [constructor(logger, cacheDir = '.cache', cacheTTLHours = 24)] *)
Definition new (cacheDir : string) (cacheTTLHours : Z) : t :=
  {| cacheDir := cacheDir; cacheTTL := cacheTTLHours * 60 * 60 * 1000 |}.

Definition default : t := new ".cache" 24.

Section WithPath.

(** Node's [path.join]. *)
Variable path_join : string -> string -> string.

Definition getCacheFilePath (self : t) (username : string) : string :=
  path_join (cacheDir self) ("teams-" +:+ username +:+ ".json").

(** [fs.pathExists]: resolves to [false] on any failure, never rejects. *)
Definition pathExists (fs : gmap string CacheFile) (p : string) : Completion bool :=
  Returned (match fs !! p with Some _ => true | None => false end).

(** [fs.readJson] *)
Definition readJson (fs : gmap string CacheFile) (p : string) : Completion JsonValue :=
  match fs !! p with
  | None => Thrown "ENOENT: no such file or directory"
  | Some Unreadable => Thrown "EACCES: permission denied"
  | Some Unparsable => Thrown "SyntaxError: Unexpected token in JSON"
  | Some (Parsed data) => Returned data
  end.

(** [cacheData.prop]: a [TypeError] on [null]. *)
Definition get_prop {A : Type} (prop : JsonObject -> option A) (cacheData : JsonValue)
    : Completion (option A) :=
  match cacheData with
  | JsonNull => Thrown "TypeError: Cannot read properties of null"
  | JsonObj o => Returned (prop o)
  end.

(** The body of the [try] block.  [now] is the value of [Date.now()].
    The result [None] stands for [null] and for [undefined], which the
    only caller tests with [if (cachedTeams)] and cannot tell apart. *)
Definition getCachedTeams_body (self : t) (fs : gmap string CacheFile) (now : Z)
    (username : string) : Completion (option (list GitHubTeam)) :=
  let cacheFilePath := getCacheFilePath self username in
  let* found := pathExists fs cacheFilePath in
  if negb found then Returned None
  else
    let* cacheData := readJson fs cacheFilePath in
    let* data_timestamp := get_prop json_timestamp cacheData in
    let cacheAge := js_sub now data_timestamp in
    if js_gt cacheAge (cacheTTL self) then Returned None
    else
      let* data_username := get_prop json_username cacheData in
      if js_strict_ne data_username username then Returned None
      else get_prop json_teams cacheData.

(** [getCachedTeams]: the body, and [catch (error) { ...; return null }]. *)
Definition getCachedTeams (self : t) (fs : gmap string CacheFile) (now : Z)
    (username : string) : Completion (option (list GitHubTeam)) :=
  try_catch (getCachedTeams_body self fs now username)
            (fun _ => Returned None).

(** [fs.writeJson] and [fs.remove] *)
Definition fs_writeJson (io : DiskIO) (fs : gmap string CacheFile) (p : string)
    (data : JsonValue) : Completion unit * gmap string CacheFile :=
  match writeJson io with
  | Done => (Returned tt, <[p := Parsed data]> fs)
  | Failed e residue => (Thrown e, put_file p residue fs)
  end.

Definition fs_remove (io : DiskIO) (fs : gmap string CacheFile) (p : string)
    : Completion unit * gmap string CacheFile :=
  match remove io with
  | Done => (Returned tt, delete p fs)
  | Failed e residue => (Thrown e, put_file p residue fs)
  end.

(** [saveTeamsToCache]: [ensureDir], then [writeJson] of the record
    stamped with [Date.now()]; the [catch] warns and does not throw. *)
Definition saveTeamsToCache (self : t) (io : DiskIO) (fs : gmap string CacheFile)
    (now : Z) (username : string) (teams : list GitHubTeam)
    : Completion unit * gmap string CacheFile :=
  match ensureDir io with
  | Thrown _ => (Returned tt, fs)
  | Returned _ =>
      let cacheData := {| teams := teams; timestamp := now; username := username |} in
      let cacheFilePath := getCacheFilePath self username in
      match fs_writeJson io fs cacheFilePath (to_json cacheData) with
      | (Returned _, fs) => (Returned tt, fs)
      | (Thrown _, fs) => (Returned tt, fs)
      end
  end.

(** [invalidateCache]: remove the user's file if it exists. *)
Definition invalidateCache (self : t) (io : DiskIO) (fs : gmap string CacheFile)
    (username : string) : Completion unit * gmap string CacheFile :=
  let cacheFilePath := getCacheFilePath self username in
  match pathExists fs cacheFilePath with
  | Thrown _ => (Returned tt, fs)
  | Returned true =>
      match fs_remove io fs cacheFilePath with
      | (Returned _, fs) => (Returned tt, fs)
      | (Thrown _, fs) => (Returned tt, fs)
      end
  | Returned false => (Returned tt, fs)
  end.

End WithPath.

End TeamCacheManager.

(** ** The gateway ([github-client.ts], at its interface)

    The processor reaches the remote API only through these methods of
    [GitHubClient]; what each call settles to is given from outside. *)

Module GitHubClient.

Record PullRequestInfo := mkInfo {
  pr_owner : string;
  pr_repo : string;
  pullNumber : Z
}.

Record t := mk {
  getUserTeams : string -> bool -> Completion (list GitHubTeam);
  getNotifications : Completion (list GitHubNotification);
  extractPullRequestInfo : string -> option PullRequestInfo;
  getPullRequestDetails : string -> string -> Z -> Completion PullRequestPayload;
  markThreadAsDone : string -> Completion unit
}.

End GitHubClient.

(** ** The logger ([interface Logger])

    A call [logger.level(message, ...args)] appends one entry; an error
    object passed as an extra argument is kept by its message. *)

Inductive Level := info | warn | error | debug.

Record LogEntry := mkLog {
  level : Level;
  message : string;
  args : list string
}.

(** What a run leaves behind: the entries the processor logged, oldest
    first, and the identifiers it handed to [markThreadAsDone] with
    success. *)
Record Effects := mkEffects {
  logged : list LogEntry;
  marked : list string
}.

Definition say (l : Level) (msg : string) (extra : list string) (fx : Effects) : Effects :=
  {| logged := logged fx ++ [mkLog l msg extra]; marked := marked fx |}.

Definition mark (threadId : string) (fx : Effects) : Effects :=
  {| logged := logged fx; marked := marked fx ++ [threadId] |}.

(** ** The orchestrator ([notification-processor.ts]) *)

Module NotificationProcessor.

Record t := mk {
  githubClient : GitHubClient.t;
  currentUser : string;
  userTeams : option (list GitHubTeam);
  dryRun : bool;
  invalidateCache : bool
}.

(** The constructor; [userTeams] starts as [null]. *)
Definition new (client : GitHubClient.t) (currentUser : string)
    (dryRun invalidateCache : bool) : t :=
  {| githubClient := client; currentUser := currentUser; userTeams := None;
     dryRun := dryRun; invalidateCache := invalidateCache |}.

Definition set_userTeams (teams : list GitHubTeam) (self : t) : t :=
  {| githubClient := githubClient self; currentUser := currentUser self;
     userTeams := Some teams;
     dryRun := dryRun self; invalidateCache := invalidateCache self |}.

(** [this.filter]: the two rules close over [currentUser] and over
    [() => this.userTeams], read when the decision is taken. *)
Definition filter (self : t) : NotificationFilter :=
  processorFilter (currentUser self) (userTeams self).

(** [loadUserTeams]: an [async] method whose whole body sits in a
    [try] with a [catch] that does not throw again. *)
Definition loadUserTeams (self : t) (fx : Effects) : Completion unit * (t * Effects) :=
  match userTeams self with
  | Some _ => (Returned tt, (self, fx))
  | None =>
      let fx := say info ("Loading teams for user: " +:+ currentUser self) [] fx in
      match GitHubClient.getUserTeams (githubClient self)
              (currentUser self) (invalidateCache self) with
      | Returned teams =>
          (Returned tt,
           (set_userTeams teams self,
            say info ("Loaded " +:+ pretty (length teams) +:+ " teams for user "
                      +:+ currentUser self) [] fx))
      | Thrown e =>
          (Returned tt,
           (set_userTeams [] self,
            say warn ("Failed to load teams for user " +:+ currentUser self
                      +:+ ", continuing without team data:") [e] fx))
      end
  end.

(** The first half of the loop body: [prDetails] for a thread. *)
Definition fetchDetails (self : t) (notification : GitHubNotification) (fx : Effects)
    : option PullRequestPayload * Effects :=
  if String.eqb (type (subject notification)) "PullRequest" then
    match GitHubClient.extractPullRequestInfo (githubClient self)
            (subject_url (subject notification)) with
    | Some prInfo =>
        match GitHubClient.getPullRequestDetails (githubClient self)
                (GitHubClient.pr_owner prInfo) (GitHubClient.pr_repo prInfo)
                (GitHubClient.pullNumber prInfo) with
        | Returned d => (Some d, fx)
        | Thrown e =>
            (None, say warn ("Failed to fetch PR details for thread "
                             +:+ id notification +:+ ":") [e] fx)
        end
    | None => (None, fx)
    end
  else (None, fx).

Record Counts := mkCounts {
  processedCount : nat;
  markedAsDoneCount : nat
}.

(** One iteration of the [for] loop, with its own [try]/[catch]. *)
Definition processThread (self : t) (notification : GitHubNotification)
    (st : Counts * Effects) : Counts * Effects :=
  let '(n, fx) := st in
  let fx := say debug ("Processing thread " +:+ id notification +:+ ": "
                       +:+ title (subject notification)) [] fx in
  let '(prDetails, fx) := fetchDetails self notification fx in
  if filter self notification prDetails then
    if dryRun self then
      (mkCounts (S (processedCount n)) (S (markedAsDoneCount n)),
       say info ("[DRY RUN] Would mark thread as done: "
                 +:+ title (subject notification)) [] fx)
    else
      match GitHubClient.markThreadAsDone (githubClient self) (id notification) with
      | Returned _ =>
          (mkCounts (S (processedCount n)) (S (markedAsDoneCount n)),
           say info ("Marked thread as done: " +:+ title (subject notification)) []
               (mark (id notification) fx))
      | Thrown e =>
          (n, say error ("Error processing thread " +:+ id notification +:+ ":") [e] fx)
      end
  else
    (mkCounts (S (processedCount n)) (markedAsDoneCount n),
     say debug ("Keeping thread: " +:+ title (subject notification)) [] fx).

Definition processAll (self : t) (notifications : list GitHubNotification)
    (st : Counts * Effects) : Counts * Effects :=
  fold_left (fun st notification => processThread self notification st) notifications st.

(** What follows [await this.loadUserTeams()] inside the [try] block. *)
Definition fetchAndProcess (self : t) (fx : Effects) : Completion unit * Effects :=
  match GitHubClient.getNotifications (githubClient self) with
  | Thrown e => (Thrown e, fx)
  | Returned notifications =>
      match notifications with
      | [] => (Returned tt, say info "No unread threads found" [] fx)
      | _ =>
          let '(n, fx) := processAll self notifications (mkCounts 0 0, fx) in
          let action := if dryRun self then "would be marked" else "marked" in
          (Returned tt,
           say info ("Processing complete. Processed " +:+ pretty (processedCount n)
                     +:+ " threads, " +:+ pretty (markedAsDoneCount n) +:+ " "
                     +:+ action +:+ " as done") [] fx)
      end
  end.

(** The [try] block of [processNotifications]: the stages in order.  The
    result carries the processor as the run leaves it. *)
Definition processNotifications_body (self : t) (fx : Effects)
    : Completion unit * (t * Effects) :=
  let fx := say info "Starting thread processing..." [] fx in
  match loadUserTeams self fx with
  | (Thrown e, st) => (Thrown e, st)
  | (Returned _, (self, fx)) =>
      let '(r, fx) := fetchAndProcess self fx in (r, (self, fx))
  end.

(** The outer [catch (error) { logger.error(...); throw error }]. *)
Definition log_and_rethrow (r : Completion unit * (t * Effects))
    : Completion unit * (t * Effects) :=
  match r with
  | (Returned u, st) => (Returned u, st)
  | (Thrown e, (self, fx)) =>
      (Thrown e, (self, say error "Failed to process threads:" [e] fx))
  end.

Definition processNotifications (self : t) (fx : Effects)
    : Completion unit * (t * Effects) :=
  log_and_rethrow (processNotifications_body self fx).

End NotificationProcessor.

(** ** Sample data

    The threads, pull requests and teams of the specification's
    end-to-end scenarios. *)

Module Samples.

Definition alice : Account := mkAccount "alice" 1.
Definition bob : Account := mkAccount "bob" 2.
Definition renovate : Account := mkAccount "renovate-sh-app[bot]" 3.

Definition acme : Organization := mkOrganization "acme" 7.

(** A team whose name and slug differ in case only. *)
Definition core : GitHubTeam := mkGitHubTeam 70 "Core" "core" acme.

Definition thread (kind : string) : GitHubNotification :=
  {| id := "1001"; unread := true; reason := "subscribed";
     updated_at := "2025-01-01T00:00:00Z"; last_read_at := None;
     subject := {| title := "Bump lodash";
                   subject_url := "https://api.github.com/repos/acme/app/pulls/5";
                   latest_comment_url := ""; type := kind |};
     repository := {| repo_id := 9; repo_name := "app"; full_name := "acme/app";
                      owner := mkAccount "acme" 7 |};
     url := "https://api.github.com/notifications/threads/1001";
     subscription_url := "" |}.

Definition pull (st : PRState) (author : Account) (reviewers : list Account)
    (review_teams : list RequestedTeam) (assigned : list Account) : PullRequestDetails :=
  {| pr_id := 500; number := 5; state := st; merged := false;
     merged_at := None; closed_at := None; user := author;
     requested_reviewers := reviewers; requested_teams := review_teams;
     assignees := assigned |}.

(** Scenario A: closed, unmerged, by alice, nobody requested or assigned. *)
Definition scenario_A : PullRequestPayload := of_declared (pull closed alice [] [] []).

(** Scenario C: open, by the bot, account type set; the team "core" is
    asked for a review. *)
Definition scenario_C : PullRequestPayload :=
  {| details := pull open renovate [] [mkRequestedTeam "core" 70] [];
     user_type := Some "Bot" |}.

(** A stand-in for [path.join] on plain segments. *)
Definition join (dir file : string) : string := dir +:+ "/" +:+ file.

(** Bob's snapshot, captured at time 1000. *)
Definition bobs_record : TeamCache :=
  {| teams := [core]; timestamp := 1000; username := "bob" |}.

(** Scenario D: a record tagged for alice. *)
Definition alices_record : TeamCache :=
  {| teams := [core]; timestamp := 1000; username := "alice" |}.

(** A record for bob with no [timestamp] property. *)
Definition untimed_record : JsonValue :=
  JsonObj {| json_teams := Some [core]; json_timestamp := None;
             json_username := Some "bob" |}.

(** A cache directory holding one file, bob's. *)
Definition cache_with (file : CacheFile) : gmap string CacheFile :=
  {[ ".cache/teams-bob.json" := file ]}.

(** A gateway whose team fetch fails and whose other calls succeed:
    one unread thread, for the pull request of scenario A. *)
Definition client_without_teams : GitHubClient.t :=
  {| GitHubClient.getUserTeams := fun _ _ => Thrown "HttpError: rate limit exceeded";
     GitHubClient.getNotifications := Returned [thread "PullRequest"];
     GitHubClient.extractPullRequestInfo :=
       fun _ => Some (GitHubClient.mkInfo "acme" "app" 5);
     GitHubClient.getPullRequestDetails := fun _ _ _ => Returned scenario_A;
     GitHubClient.markThreadAsDone := fun _ => Returned tt |}.

Definition quiet : Effects := {| logged := []; marked := [] |}.

End Samples.

(** ** The remote API ([@octokit/rest], at its interface)

    The calls the client makes.  A list call answers one page: the
    entries and the [Link] header, if any. *)

Module Octokit.

Record Page (A : Type) := mkPage {
  data : list A;
  link : option string
}.
Arguments mkPage {A} data link.
Arguments data {A} p.
Arguments link {A} p.

(** A team as [teams.list] gives it; the client reads these three
    properties. *)
Record Team := mkTeam {
  id : Z;
  name : string;
  slug : string
}.

Record t := mk {
  listForAuthenticatedUser : nat -> Completion (Page Organization);
  listForUser : string -> nat -> Completion (Page Organization);
  teams_list : string -> nat -> Completion (Page Team);
  (* org, team_slug, username; the answer's [status] *)
  getMembershipForUserInOrg : string -> string -> string -> Completion Z;
  listNotificationsForAuthenticatedUser : nat -> Completion (Page GitHubNotification)
}.

End Octokit.

(** ** The client ([github-client.ts])

    The methods of [class GitHubClient] over an [Octokit.t], the log
    entries left out.  The four [fetchAll...] loops are one loop around
    four calls; it runs while the API announces a next page, so the
    embedding bounds the number of rounds by [fuel] and answers [None]
    when the bound is hit before the loop ends. *)

Module GitHubClientMethods.

(** [s.includes(needle)] *)
Fixpoint includes (needle s : string) : bool :=
  if String.prefix needle s then true
  else
    match s with
    | EmptyString => false
    | String _ rest => includes needle rest
    end.

(** The text [rel="next"]. *)
Definition rel_next : string :=
  "rel=" +:+ String (Ascii.ascii_of_nat 34) ("next" +:+ String (Ascii.ascii_of_nat 34) EmptyString).

(** [!linkHeader || !linkHeader.includes('rel="next"')]: no next page. *)
Definition isLastPage (linkHeader : option string) : bool :=
  match linkHeader with
  | None => true
  | Some l => String.eqb l "" || negb (includes rel_next l)
  end.

(** The [while (true)] loop: [page] and the entries gathered so far. *)
Fixpoint fetchAllFrom {A : Type} (list_page : nat -> Completion (Octokit.Page A))
    (fuel : nat) (page : nat) (all : list A) : option (Completion (list A)) :=
  match fuel with
  | O => None
  | S fuel =>
      match list_page page with
      | Thrown e => Some (Thrown e)
      | Returned answer =>
          if Nat.eqb (length (Octokit.data answer)) 0 then Some (Returned all)
          else
            let all := (all ++ Octokit.data answer)%list in
            if isLastPage (Octokit.link answer) then Some (Returned all)
            else fetchAllFrom list_page fuel (S page) all
      end
  end.

(** [let page = 1] and an empty array. *)
Definition fetchAll {A : Type} (list_page : nat -> Completion (Octokit.Page A))
    (fuel : nat) : option (Completion (list A)) :=
  fetchAllFrom list_page fuel 1 [].

Definition fetchAllOrgsForAuthenticatedUser (api : Octokit.t) (fuel : nat)
    : option (Completion (list Organization)) :=
  fetchAll (Octokit.listForAuthenticatedUser api) fuel.

Definition fetchAllOrgsForUser (api : Octokit.t) (fuel : nat) (username : string)
    : option (Completion (list Organization)) :=
  fetchAll (Octokit.listForUser api username) fuel.

Definition fetchAllTeamsForOrg (api : Octokit.t) (fuel : nat) (orgLogin : string)
    : option (Completion (list Octokit.Team)) :=
  fetchAll (Octokit.teams_list api orgLogin) fuel.

Definition fetchAllNotifications (api : Octokit.t) (fuel : nat)
    : option (Completion (list GitHubNotification)) :=
  fetchAll (Octokit.listNotificationsForAuthenticatedUser api) fuel.

(** [getNotifications]: the loop; its [catch] logs and throws again. *)
Definition getNotifications (api : Octokit.t) (fuel : nat)
    : option (Completion (list GitHubNotification)) :=
  fetchAllNotifications api fuel.

(** The organizations of [getUserTeams]: the authenticated listing, and
    the public one of [username] when that throws. *)
Definition fetchOrgs (api : Octokit.t) (fuel : nat) (username : string)
    : option (Completion (list Organization)) :=
  match fetchAllOrgsForAuthenticatedUser api fuel with
  | None => None
  | Some (Returned orgs) => Some (Returned orgs)
  | Some (Thrown _) => fetchAllOrgsForUser api fuel username
  end.

(** The inner [for]: what one team adds to [allTeams]. *)
Definition memberTeam (api : Octokit.t) (username : string) (org : Organization)
    (team : Octokit.Team) : list GitHubTeam :=
  match Octokit.getMembershipForUserInOrg api (org_login org) (Octokit.slug team) username with
  | Returned status =>
      if status =? 200 then
        [ {| team_id := Octokit.id team; name := Octokit.name team;
             slug := Octokit.slug team;
             organization := {| org_login := org_login org; org_id := org_id org |} |} ]
      else []
  | Thrown _ => []
  end.

Definition memberTeams (api : Octokit.t) (username : string) (org : Organization)
    (allOrgTeams : list Octokit.Team) : list GitHubTeam :=
  flat_map (memberTeam api username org) allOrgTeams.

(** The outer [for]: an organization whose teams cannot be listed is
    skipped. *)
Fixpoint teamsOfOrgs (api : Octokit.t) (fuel : nat) (username : string)
    (orgs : list Organization) : option (list GitHubTeam) :=
  match orgs with
  | [] => Some []
  | org :: rest =>
      match fetchAllTeamsForOrg api fuel (org_login org) with
      | None => None
      | Some listed =>
          let here :=
            match listed with
            | Returned allOrgTeams => memberTeams api username org allOrgTeams
            | Thrown _ => []
            end in
          match teamsOfOrgs api fuel username rest with
          | None => None
          | Some others => Some (here ++ others)%list
          end
      end
  end.

Section WithDisk.

Variable path_join : string -> string -> string.

(** [getUserTeams].  [now] is the clock when the cache is read, [later]
    when it is written.  The result pairs what the method settles to with
    the cache directory it leaves. *)
Definition getUserTeams (api : Octokit.t) (cacheManager : TeamCacheManager.t)
    (io : DiskIO) (fuel : nat) (fs : gmap string CacheFile) (now later : Z)
    (username : string) (invalidateCache : bool)
    : option (Completion (list GitHubTeam) * gmap string CacheFile) :=
  let fresh (fs : gmap string CacheFile) :=
    match fetchOrgs api fuel username with
    | None => None
    | Some (Thrown e) => Some (Thrown e, fs)
    | Some (Returned orgs) =>
        match teamsOfOrgs api fuel username orgs with
        | None => None
        | Some allTeams =>
            let '(_, fs) :=
              TeamCacheManager.saveTeamsToCache path_join cacheManager io fs later
                username allTeams in
            Some (Returned allTeams, fs)
        end
    end in
  if negb invalidateCache then
    match TeamCacheManager.getCachedTeams path_join cacheManager fs now username with
    | Thrown e => Some (Thrown e, fs)
    | Returned (Some cachedTeams) => Some (Returned cachedTeams, fs)
    | Returned None => fresh fs
    end
  else
    let '(_, fs) := TeamCacheManager.invalidateCache path_join cacheManager io fs username in
    fresh fs.

End WithDisk.

(** [extractPullRequestInfo]: the first match of
    [/\/repos\/([^\/]+)\/([^\/]+)\/pulls\/(\d+)/] in [url].

    Each group is followed by a text it cannot contain (a slash after a
    run without slashes, the end of the pattern after the digits), so the
    greedy match of a group is the whole run and no shorter one can
    succeed: a match that starts at a given place is unique. *)

Definition is_slash (c : Ascii.ascii) : bool := Ascii.eqb c "/"%char.

Definition is_digit (c : Ascii.ascii) : bool :=
  (48 <=? Ascii.nat_of_ascii c)%nat && (Ascii.nat_of_ascii c <=? 57)%nat.

(** The longest prefix of characters that satisfy [keep], and the rest. *)
Fixpoint span (keep : Ascii.ascii -> bool) (s : string) : string * string :=
  match s with
  | EmptyString => (EmptyString, EmptyString)
  | String c rest =>
      if keep c then let '(run, after) := span keep rest in (String c run, after)
      else (EmptyString, s)
  end.

(** [s] without the prefix [literal], if it starts with it. *)
Fixpoint strip (literal s : string) : option string :=
  match literal, s with
  | EmptyString, _ => Some s
  | String a literal, String b s => if Ascii.eqb a b then strip literal s else None
  | String _ _, EmptyString => None
  end.

(** [parseInt] of a run of decimal digits. *)
Definition digit_value (c : Ascii.ascii) : Z := Z.of_nat (Ascii.nat_of_ascii c) - 48.

Fixpoint parse_digits (s : string) (value : Z) : Z :=
  match s with
  | EmptyString => value
  | String c rest => parse_digits rest (10 * value + digit_value c)
  end.

Record PullRequestInfo := mkInfo {
  owner : string;
  repo : string;
  pullNumber : Z
}.

(** A match of the pattern that starts at the head of [s]. *)
Definition match_here (s : string) : option PullRequestInfo :=
  match strip "/repos/" s with
  | None => None
  | Some s =>
      let '(g1, s) := span (fun c => negb (is_slash c)) s in
      if String.eqb g1 "" then None
      else
        match strip "/" s with
        | None => None
        | Some s =>
            let '(g2, s) := span (fun c => negb (is_slash c)) s in
            if String.eqb g2 "" then None
            else
              match strip "/pulls/" s with
              | None => None
              | Some s =>
                  let '(g3, _) := span is_digit s in
                  if String.eqb g3 "" then None
                  else Some {| owner := g1; repo := g2; pullNumber := parse_digits g3 0 |}
              end
        end
  end.

(** [url.match(...)]: the leftmost place where a match starts. *)
Fixpoint extractPullRequestInfo (url : string) : option PullRequestInfo :=
  match match_here url with
  | Some found => Some found
  | None =>
      match url with
      | EmptyString => None
      | String _ rest => extractPullRequestInfo rest
      end
  end.

End GitHubClientMethods.

(** [s] is empty or begins with a character that [keep] rejects. *)
Definition starts_without (keep : ascii -> bool) (s : string) : Prop :=
  match s with
  | EmptyString => True
  | String c _ => keep c = false
  end.

(** ** More sample data *)

Module Fixtures.

(** A disk on which every call succeeds, and one on which none does. *)
Definition healthy : DiskIO :=
  {| ensureDir := Returned tt; writeJson := Done; remove := Done |}.

Definition broken : DiskIO :=
  {| ensureDir := Thrown "EROFS: read-only file system";
     writeJson := Failed "EROFS: read-only file system" None;
     remove := Failed "EROFS: read-only file system" None |}.

(** Two organizations, listed on two pages; a third page is never
    asked for. *)
Definition globex : Organization := mkOrganization "globex" 8.

Definition next_link : string :=
  "<https://api.github.com/user/orgs?page=2>; " +:+ GitHubClientMethods.rel_next.

Definition org_pages (page : nat) : Octokit.Page Organization :=
  match page with
  | 1%nat => Octokit.mkPage [Samples.acme] (Some next_link)
  | 2%nat => Octokit.mkPage [globex] None
  | _ => Octokit.mkPage [] None
  end.

(** A listing whose second page fails. *)
Definition flaky_orgs (page : nat) : Completion (Octokit.Page Organization) :=
  match page with
  | 1%nat => Returned (Octokit.mkPage [Samples.acme] (Some next_link))
  | _ => Thrown "HttpError: 502"
  end.

(** An API for bob: the two organizations above; "acme" has the teams
    "Core", of which he is a member, and "Ops", of which he is not (the
    membership call throws); the teams of "globex" cannot be listed. *)
Definition bobs_api : Octokit.t :=
  {| Octokit.listForAuthenticatedUser := fun page => Returned (org_pages page);
     Octokit.listForUser := fun _ _ => Thrown "HttpError: 404";
     Octokit.teams_list := fun org page =>
       if String.eqb org "acme" then
         match page with
         | 1%nat => Returned (Octokit.mkPage
                                [Octokit.mkTeam 70 "Core" "core"; Octokit.mkTeam 71 "Ops" "ops"]
                                None)
         | _ => Returned (Octokit.mkPage [] None)
         end
       else Thrown "HttpError: 403";
     Octokit.getMembershipForUserInOrg := fun org team_slug _ =>
       if String.eqb team_slug "core" then Returned 200 else Thrown "HttpError: 404";
     Octokit.listNotificationsForAuthenticatedUser := fun _ =>
       Returned (Octokit.mkPage [] None) |}.

(** An API whose organization listings both fail. *)
Definition dead_api : Octokit.t :=
  {| Octokit.listForAuthenticatedUser := fun _ => Thrown "HttpError: 401";
     Octokit.listForUser := fun _ _ => Thrown "HttpError: 404";
     Octokit.teams_list := fun _ _ => Thrown "HttpError: 401";
     Octokit.getMembershipForUserInOrg := fun _ _ _ => Thrown "HttpError: 401";
     Octokit.listNotificationsForAuthenticatedUser := fun _ => Thrown "HttpError: 401" |}.

End Fixtures.

(** * Properties *)

(** ** Reading the boolean tests *)

Lemma some_login_In (currentUser : string) (xs : list Account) :
  some_login currentUser xs = true <-> In currentUser (map login xs).
Proof.
  unfold some_login. rewrite existsb_exists, in_map_iff.
  split; intros [a [H1 H2]]; exists a.
  - apply String.eqb_eq in H2. tauto.
  - split; [tauto | apply String.eqb_eq; tauto].
Qed.

Lemma some_login_not_In (currentUser : string) (xs : list Account) :
  some_login currentUser xs = false <-> ~ In currentUser (map login xs).
Proof.
  rewrite <- some_login_In. destruct (some_login currentUser xs); split; intros; congruence.
Qed.

Lemma PRState_eqb_eq (a b : PRState) : PRState_eqb a b = true <-> a = b.
Proof. destruct a, b; simpl; split; congruence. Qed.

Lemma teamMatches_spec (requestedTeam : RequestedTeam) (userTeam : GitHubTeam) :
  MergedClosedPRFilter.teamMatches requestedTeam userTeam = true <->
  name userTeam = rt_name requestedTeam \/ slug userTeam = rt_name requestedTeam.
Proof.
  unfold MergedClosedPRFilter.teamMatches.
  rewrite orb_true_iff, !String.eqb_eq. tauto.
Qed.

Lemma isTeamReviewer_spec (userTeams : list GitHubTeam) (prDetails : PullRequestDetails) :
  MergedClosedPRFilter.isTeamReviewer userTeams prDetails = true <->
  exists userTeam requestedTeam,
    In userTeam userTeams /\ In requestedTeam (requested_teams prDetails) /\
    (name userTeam = rt_name requestedTeam \/ slug userTeam = rt_name requestedTeam).
Proof.
  unfold MergedClosedPRFilter.isTeamReviewer. rewrite existsb_exists. split.
  - intros [rt [Hrt Hex]]. apply existsb_exists in Hex as [ut [Hut Hm]].
    exists ut, rt. rewrite <- teamMatches_spec. tauto.
  - intros [ut [rt [Hut [Hrt Hm]]]]. exists rt. split; [exact Hrt |].
    apply existsb_exists. exists ut. rewrite teamMatches_spec. tauto.
Qed.

Lemma isDirectReviewer_spec (currentUser : string) (userTeams : option (list GitHubTeam))
    (prDetails : PullRequestDetails) :
  MergedClosedPRFilter.isDirectReviewer currentUser userTeams prDetails = true <->
  In currentUser (map login (requested_reviewers prDetails)) \/
  MergedClosedPRFilter.isTeamReviewer (snapshot userTeams) prDetails = true.
Proof.
  unfold MergedClosedPRFilter.isDirectReviewer. rewrite <- some_login_In.
  destruct (some_login currentUser (requested_reviewers prDetails)); [tauto |].
  destruct userTeams as [ts |]; simpl.
  - destruct (MergedClosedPRFilter.isTeamReviewer ts prDetails); intuition congruence.
  - assert (MergedClosedPRFilter.isTeamReviewer [] prDetails = false) as ->.
    { unfold MergedClosedPRFilter.isTeamReviewer.
      induction (requested_teams prDetails); simpl; auto. }
    intuition congruence.
Qed.

(** Both rules and their composition abstain outside their domain. *)
Lemma merged_closed_abstains currentUser userTeams notification prDetails :
  type (subject notification) <> "PullRequest" \/ prDetails = None ->
  MergedClosedPRFilter.shouldMarkAsDone currentUser userTeams notification prDetails = false.
Proof.
  unfold MergedClosedPRFilter.shouldMarkAsDone. intros [H | ->].
  - apply String.eqb_neq in H. rewrite H. reflexivity.
  - destruct (negb _); reflexivity.
Qed.

Lemma renovate_abstains currentUser userTeams notification prDetails :
  type (subject notification) <> "PullRequest" \/ prDetails = None ->
  RenovatePRFilter.shouldMarkAsDone currentUser userTeams notification prDetails = false.
Proof.
  unfold RenovatePRFilter.shouldMarkAsDone. intros [H | ->].
  - apply String.eqb_neq in H. rewrite H. reflexivity.
  - destruct (negb _); reflexivity.
Qed.

Lemma processorFilter_orb currentUser userTeams notification prDetails :
  processorFilter currentUser userTeams notification prDetails =
  MergedClosedPRFilter.shouldMarkAsDone currentUser userTeams notification prDetails
  || RenovatePRFilter.shouldMarkAsDone currentUser userTeams notification prDetails.
Proof.
  unfold processorFilter. simpl.
  destruct (MergedClosedPRFilter.shouldMarkAsDone _ _ _ _); simpl; [reflexivity |].
  destruct (RenovatePRFilter.shouldMarkAsDone _ _ _ _); reflexivity.
Qed.

(** A list of rules that all abstain makes the composite abstain. *)
Lemma composite_all_false (filters : list NotificationFilter) notification prDetails :
  Forall (fun f : NotificationFilter => f notification prDetails = false) filters ->
  CompositeFilter.shouldMarkAsDone filters notification prDetails = false.
Proof.
  induction 1 as [| f fs Hf _ IH]; simpl; [reflexivity |].
  rewrite Hf. exact IH.
Qed.

(** ** The merged/closed rule *)

Lemma merged_closed_as_conjunction currentUser userTeams notification
    (prDetails : PullRequestPayload) :
  type (subject notification) = "PullRequest" ->
  MergedClosedPRFilter.shouldMarkAsDone currentUser userTeams notification (Some prDetails) =
  (PRState_eqb (state prDetails) closed || Bool.eqb (merged prDetails) true)
  && negb (MergedClosedPRFilter.isDirectReviewer currentUser userTeams prDetails)
  && negb (String.eqb (login (user prDetails)) currentUser)
  && negb (some_login currentUser (assignees prDetails)).
Proof.
  intros Hkind. unfold MergedClosedPRFilter.shouldMarkAsDone.
  rewrite Hkind, String.eqb_refl. cbn [negb].
  destruct (PRState_eqb _ _ || Bool.eqb _ _); cbn [negb andb]; [| reflexivity].
  destruct (MergedClosedPRFilter.isDirectReviewer _ _ _); cbn [negb andb]; [reflexivity |].
  destruct (String.eqb _ _); cbn [negb andb]; [reflexivity |].
  destruct (some_login _ _); reflexivity.
Qed.

Lemma no_team_matches (userTeams : list GitHubTeam) (prDetails : PullRequestDetails) :
  MergedClosedPRFilter.isTeamReviewer userTeams prDetails = false <->
  forall userTeam requestedTeam,
    In userTeam userTeams -> In requestedTeam (requested_teams prDetails) ->
    name userTeam <> rt_name requestedTeam /\ slug userTeam <> rt_name requestedTeam.
Proof.
  split.
  - intros Hno ut rt Hut Hrt.
    assert (~ (name ut = rt_name rt \/ slug ut = rt_name rt)); [| tauto].
    intros Hm.
    assert (MergedClosedPRFilter.isTeamReviewer userTeams prDetails = true); [| congruence].
    apply isTeamReviewer_spec. eauto.
  - intros Hall.
    destruct (MergedClosedPRFilter.isTeamReviewer userTeams prDetails) eqn:E; [| reflexivity].
    apply isTeamReviewer_spec in E as [ut [rt [Hut [Hrt Hm]]]].
    destruct (Hall ut rt Hut Hrt). tauto.
Qed.

(** C2.  On a PullRequest notification with PR detail, the merged/closed
    rule answers [true] exactly when the five conditions hold together:
    the PR is closed or merged; the user is not a requested individual
    reviewer; no team of the user's snapshot has a name or a slug equal to
    the name of a requested-review team; the user is not the author; the
    user is not an assignee. *)
Theorem merged_closed_rule_iff (currentUser : string)
    (userTeams : option (list GitHubTeam)) (notification : GitHubNotification)
    (prDetails : PullRequestPayload) :
  type (subject notification) = "PullRequest" ->
  (MergedClosedPRFilter.shouldMarkAsDone currentUser userTeams notification (Some prDetails)
     = true
   <->
   (state prDetails = closed \/ merged prDetails = true) /\
   ~ In currentUser (map login (requested_reviewers prDetails)) /\
   (forall userTeam requestedTeam,
      In userTeam (snapshot userTeams) ->
      In requestedTeam (requested_teams prDetails) ->
      name userTeam <> rt_name requestedTeam /\ slug userTeam <> rt_name requestedTeam) /\
   login (user prDetails) <> currentUser /\
   ~ In currentUser (map login (assignees prDetails))).
Proof.
  intros Hkind. rewrite (merged_closed_as_conjunction _ _ _ _ Hkind).
  rewrite !andb_true_iff, !negb_true_iff, orb_true_iff.
  rewrite PRState_eqb_eq, Bool.eqb_true_iff, String.eqb_neq, some_login_not_In.
  rewrite <- no_team_matches.
  assert (MergedClosedPRFilter.isDirectReviewer currentUser userTeams prDetails = false <->
          ~ In currentUser (map login (requested_reviewers prDetails)) /\
          MergedClosedPRFilter.isTeamReviewer (snapshot userTeams) prDetails = false) as ->.
  { pose proof (isDirectReviewer_spec currentUser userTeams prDetails) as Hd.
    destruct (MergedClosedPRFilter.isDirectReviewer currentUser userTeams prDetails);
      destruct (MergedClosedPRFilter.isTeamReviewer (snapshot userTeams) prDetails);
      intuition congruence. }
  tauto.
Qed.

(** ** The composite *)

(** C3.  The Composite Decision keeps every notification that is not of
    PullRequest kind and every PullRequest notification without PR
    detail, whoever the user is and whatever the team snapshot holds. *)
Theorem composite_keeps_without_context (currentUser : string)
    (userTeams : option (list GitHubTeam)) (notification : GitHubNotification)
    (prDetails : option PullRequestPayload) :
  type (subject notification) <> "PullRequest" \/ prDetails = None ->
  processorFilter currentUser userTeams notification prDetails = false.
Proof.
  intros H. unfold processorFilter. apply composite_all_false.
  repeat constructor.
  - apply merged_closed_abstains, H.
  - apply renovate_abstains, H.
Qed.

Lemma composite_keeps_without_context_witness :
  processorFilter "bob" (Some [Samples.core]) (Samples.thread "Issue")
                  (Some Samples.scenario_A) = false
  /\ processorFilter "bob" None (Samples.thread "PullRequest") None = false.
Proof.
  split; apply composite_keeps_without_context.
  - left. discriminate.
  - right. reflexivity.
Defined.

Lemma merged_closed_rule_iff_witness :
  MergedClosedPRFilter.shouldMarkAsDone "bob" (Some []) (Samples.thread "PullRequest")
    (Some Samples.scenario_A) = true
  <->
  (state Samples.scenario_A = closed \/ merged Samples.scenario_A = true) /\
  ~ In "bob" (map login (requested_reviewers Samples.scenario_A)) /\
  (forall userTeam requestedTeam,
     In userTeam (snapshot (Some [])) ->
     In requestedTeam (requested_teams Samples.scenario_A) ->
     name userTeam <> rt_name requestedTeam /\ slug userTeam <> rt_name requestedTeam) /\
  login (user Samples.scenario_A) <> "bob" /\
  ~ In "bob" (map login (assignees Samples.scenario_A)).
Proof.
  apply (merged_closed_rule_iff "bob" (Some []) (Samples.thread "PullRequest")
           Samples.scenario_A).
  reflexivity.
Defined.

(** The end-to-end scenarios A and B: bob, uninvolved, has the closed
    pull request resolved; asked for a review, he keeps it. *)
Example scenario_A_resolves :
  processorFilter "bob" (Some []) (Samples.thread "PullRequest")
    (Some Samples.scenario_A) = true.
Proof. reflexivity. Qed.

Example scenario_B_keeps :
  processorFilter "bob" (Some []) (Samples.thread "PullRequest")
    (Some (of_declared (Samples.pull closed Samples.alice [Samples.bob] [] []))) = false.
Proof. reflexivity. Qed.

(** ** The automated-bot rule *)

Lemma renovate_as_conjunction currentUser userTeams notification
    (prDetails : PullRequestPayload) :
  type (subject notification) = "PullRequest" ->
  RenovatePRFilter.shouldMarkAsDone currentUser userTeams notification (Some prDetails) =
  (String.eqb (login (user prDetails)) "renovate-sh-app[bot]"
   && RenovatePRFilter.type_is_Bot prDetails)
  && negb (some_login currentUser (requested_reviewers prDetails))
  && negb (String.eqb (login (user prDetails)) currentUser)
  && negb (some_login currentUser (assignees prDetails)).
Proof.
  intros Hkind. unfold RenovatePRFilter.shouldMarkAsDone, RenovatePRFilter.isDirectReviewer.
  rewrite Hkind, String.eqb_refl. cbn [negb].
  destruct (String.eqb _ _ && RenovatePRFilter.type_is_Bot _); cbn [negb andb];
    [| reflexivity].
  destruct (some_login currentUser (requested_reviewers prDetails)); cbn [negb andb];
    [reflexivity |].
  destruct (String.eqb _ _); cbn [negb andb]; [reflexivity |].
  destruct (some_login _ _); reflexivity.
Qed.

Lemma bot_identity (prDetails : PullRequestPayload) :
  login (user prDetails) = "renovate-sh-app[bot]" ->
  user_type prDetails = Some "Bot" ->
  String.eqb (login (user prDetails)) "renovate-sh-app[bot]"
  && RenovatePRFilter.type_is_Bot prDetails = true.
Proof.
  intros Hlogin Htype. unfold RenovatePRFilter.type_is_Bot.
  rewrite Hlogin, Htype. reflexivity.
Qed.

(** C1, as the code has it.  On a PullRequest notification whose PR
    detail is open and unmerged and whose author is the bot
    ("renovate-sh-app[bot]", account type "Bot"), the merged/closed rule
    answers [false]; the automated-bot rule has no gate on the PR state:
    it answers [false] exactly when the user is a requested individual
    reviewer, the author or an assignee, and [true] otherwise; the
    Composite Decision is the bot rule's answer. *)
Theorem open_bot_pr_decision (currentUser : string)
    (userTeams : option (list GitHubTeam)) (notification : GitHubNotification)
    (prDetails : PullRequestPayload) :
  type (subject notification) = "PullRequest" ->
  login (user prDetails) = "renovate-sh-app[bot]" ->
  user_type prDetails = Some "Bot" ->
  state prDetails = open ->
  merged prDetails = false ->
  MergedClosedPRFilter.shouldMarkAsDone currentUser userTeams notification (Some prDetails)
    = false
  /\ (RenovatePRFilter.shouldMarkAsDone currentUser userTeams notification (Some prDetails)
        = false
      <-> In currentUser (map login (requested_reviewers prDetails))
          \/ login (user prDetails) = currentUser
          \/ In currentUser (map login (assignees prDetails)))
  /\ processorFilter currentUser userTeams notification (Some prDetails)
     = RenovatePRFilter.shouldMarkAsDone currentUser userTeams notification (Some prDetails).
Proof.
  intros Hkind Hlogin Htype Hstate Hmerged.
  assert (MergedClosedPRFilter.shouldMarkAsDone currentUser userTeams notification
            (Some prDetails) = false) as Hmc.
  { rewrite (merged_closed_as_conjunction _ _ _ _ Hkind), Hstate, Hmerged. reflexivity. }
  split; [exact Hmc |]. split.
  - rewrite (renovate_as_conjunction _ _ _ _ Hkind), (bot_identity _ Hlogin Htype).
    cbn [andb].
    rewrite <- !some_login_In, <- String.eqb_eq.
    destruct (some_login currentUser (requested_reviewers prDetails));
      destruct (String.eqb (login (user prDetails)) currentUser);
      destruct (some_login currentUser (assignees prDetails)); cbn; intuition congruence.
  - rewrite processorFilter_orb, Hmc. reflexivity.
Qed.

Lemma open_bot_pr_decision_witness :
  MergedClosedPRFilter.shouldMarkAsDone "bob" (Some [Samples.core])
    (Samples.thread "PullRequest") (Some Samples.scenario_C) = false
  /\ (RenovatePRFilter.shouldMarkAsDone "bob" (Some [Samples.core])
        (Samples.thread "PullRequest") (Some Samples.scenario_C) = false
      <-> In "bob" (map login (requested_reviewers Samples.scenario_C))
          \/ login (user Samples.scenario_C) = "bob"
          \/ In "bob" (map login (assignees Samples.scenario_C)))
  /\ processorFilter "bob" (Some [Samples.core]) (Samples.thread "PullRequest")
       (Some Samples.scenario_C)
     = RenovatePRFilter.shouldMarkAsDone "bob" (Some [Samples.core])
         (Samples.thread "PullRequest") (Some Samples.scenario_C).
Proof.
  apply (open_bot_pr_decision "bob" (Some [Samples.core]) (Samples.thread "PullRequest")
           Samples.scenario_C); reflexivity.
Defined.

(** C1, as the specification words it, fails: scenario C itself, read by
    bob, who is neither reviewer nor author nor assignee.  The PR is open
    and unmerged and by the bot, and yet the bot rule answers [true] and
    the Composite Decision resolves the thread. *)
Lemma open_bot_pr_is_resolved :
  type (subject (Samples.thread "PullRequest")) = "PullRequest"
  /\ login (user Samples.scenario_C) = "renovate-sh-app[bot]"
  /\ user_type Samples.scenario_C = Some "Bot"
  /\ state Samples.scenario_C = open
  /\ merged Samples.scenario_C = false
  /\ MergedClosedPRFilter.shouldMarkAsDone "bob" (Some [])
       (Samples.thread "PullRequest") (Some Samples.scenario_C) = false
  /\ RenovatePRFilter.shouldMarkAsDone "bob" (Some [])
       (Samples.thread "PullRequest") (Some Samples.scenario_C) = true
  /\ processorFilter "bob" (Some [])
       (Samples.thread "PullRequest") (Some Samples.scenario_C) = true.
Proof. repeat split. Qed.

(** C4.  A value of the declared [PullRequestDetails] interface has an
    author record of a login and an id only.  On every such value the
    test [user.type === "Bot"] fails, whatever the login, so the bot
    identity is never recognised and the automated-bot rule answers
    [false] on every input typed by the interfaces: every user, snapshot
    and notification, with the PR detail given or not. *)
Theorem renovate_rule_silent_on_declared_type (currentUser : string)
    (userTeams : option (list GitHubTeam)) (notification : GitHubNotification) :
  (forall d : PullRequestDetails,
     String.eqb (login (user (of_declared d))) "renovate-sh-app[bot]"
     && RenovatePRFilter.type_is_Bot (of_declared d) = false)
  /\ (forall prDetails : option PullRequestDetails,
        RenovatePRFilter.shouldMarkAsDone currentUser userTeams notification
          (option_map of_declared prDetails) = false).
Proof.
  assert (forall d : PullRequestDetails,
            String.eqb (login (user (of_declared d))) "renovate-sh-app[bot]"
            && RenovatePRFilter.type_is_Bot (of_declared d) = false) as Hbot.
  { intros d. unfold RenovatePRFilter.type_is_Bot. cbn [of_declared user_type].
    apply andb_false_r. }
  split; [exact Hbot |].
  intros [d |]; cbn [option_map].
  - unfold RenovatePRFilter.shouldMarkAsDone.
    destruct (negb (String.eqb (type (subject notification)) "PullRequest"));
      [reflexivity |].
    rewrite Hbot. reflexivity.
  - apply renovate_abstains. right. reflexivity.
Qed.

(** C5.  On a PullRequest notification with PR detail whose author is the
    recognised bot, when the user is not a requested individual reviewer,
    not the author and not an assignee, the automated-bot rule answers
    [true] for every team snapshot, one with a team that matches a
    requested-review team included: the rule has no team check. *)
Theorem renovate_rule_ignores_teams (currentUser : string)
    (userTeams : option (list GitHubTeam)) (notification : GitHubNotification)
    (prDetails : PullRequestPayload) :
  type (subject notification) = "PullRequest" ->
  login (user prDetails) = "renovate-sh-app[bot]" ->
  user_type prDetails = Some "Bot" ->
  ~ In currentUser (map login (requested_reviewers prDetails)) ->
  login (user prDetails) <> currentUser ->
  ~ In currentUser (map login (assignees prDetails)) ->
  RenovatePRFilter.shouldMarkAsDone currentUser userTeams notification (Some prDetails)
    = true.
Proof.
  intros Hkind Hlogin Htype Hrev Hauthor Hassigned.
  rewrite (renovate_as_conjunction _ _ _ _ Hkind), (bot_identity _ Hlogin Htype).
  apply some_login_not_In in Hrev, Hassigned. apply String.eqb_neq in Hauthor.
  rewrite Hrev, Hauthor, Hassigned. reflexivity.
Qed.

(** Bob belongs to the team "Core" (slug "core"), which scenario C asks
    for a review: the general rule counts him a reviewer, the bot rule
    resolves the thread. *)
Lemma renovate_rule_ignores_teams_witness :
  MergedClosedPRFilter.isDirectReviewer "bob" (Some [Samples.core]) Samples.scenario_C = true
  /\ RenovatePRFilter.shouldMarkAsDone "bob" (Some [Samples.core])
       (Samples.thread "PullRequest") (Some Samples.scenario_C) = true.
Proof.
  split; [reflexivity |].
  apply (renovate_rule_ignores_teams "bob" (Some [Samples.core])
           (Samples.thread "PullRequest") Samples.scenario_C);
    try reflexivity; cbn; intuition discriminate.
Defined.

(** ** Team-based reviewers *)

(** C6.  The team match of the merged/closed rule is a union over the two
    fields.  A user team matches a requested-review team exactly when its
    name is that team's name or its slug is that team's name, as equal
    strings; the user is a team reviewer exactly when some team of the
    snapshot matches some requested team; and any such match, by the name
    alone or by the slug alone, makes [isDirectReviewer] answer [true]. *)
Theorem team_match_is_union (currentUser : string) (userTeams : list GitHubTeam)
    (prDetails : PullRequestDetails) :
  (forall requestedTeam userTeam,
     MergedClosedPRFilter.teamMatches requestedTeam userTeam = true <->
     name userTeam = rt_name requestedTeam \/ slug userTeam = rt_name requestedTeam)
  /\ (MergedClosedPRFilter.isTeamReviewer userTeams prDetails = true <->
      exists userTeam requestedTeam,
        In userTeam userTeams /\ In requestedTeam (requested_teams prDetails) /\
        (name userTeam = rt_name requestedTeam \/ slug userTeam = rt_name requestedTeam))
  /\ (forall userTeam requestedTeam,
        In userTeam userTeams -> In requestedTeam (requested_teams prDetails) ->
        name userTeam = rt_name requestedTeam \/ slug userTeam = rt_name requestedTeam ->
        MergedClosedPRFilter.isDirectReviewer currentUser (Some userTeams) prDetails = true).
Proof.
  split; [exact teamMatches_spec |].
  split; [apply isTeamReviewer_spec |].
  intros ut rt Hut Hrt Hm.
  apply isDirectReviewer_spec. right. cbn [snapshot].
  apply isTeamReviewer_spec. eauto.
Qed.

(** "Core"/"core" matches a request for "core" by its slug and a request
    for "Core" by its name, each alone; a request for "CORE" matches
    neither field. *)
Lemma team_match_is_union_witness :
  MergedClosedPRFilter.isDirectReviewer "bob" (Some [Samples.core])
    (Samples.pull closed Samples.alice [] [mkRequestedTeam "core" 70] []) = true
  /\ MergedClosedPRFilter.isDirectReviewer "bob" (Some [Samples.core])
       (Samples.pull closed Samples.alice [] [mkRequestedTeam "Core" 70] []) = true
  /\ MergedClosedPRFilter.isDirectReviewer "bob" (Some [Samples.core])
       (Samples.pull closed Samples.alice [] [mkRequestedTeam "CORE" 70] []) = false.
Proof.
  split; [| split; [| reflexivity]].
  - apply (proj2 (proj2 (team_match_is_union "bob" [Samples.core]
              (Samples.pull closed Samples.alice [] [mkRequestedTeam "core" 70] [])))
             Samples.core (mkRequestedTeam "core" 70)).
    + left. reflexivity.
    + left. reflexivity.
    + right. reflexivity.
  - apply (proj2 (proj2 (team_match_is_union "bob" [Samples.core]
              (Samples.pull closed Samples.alice [] [mkRequestedTeam "Core" 70] [])))
             Samples.core (mkRequestedTeam "Core" 70)).
    + left. reflexivity.
    + left. reflexivity.
    + left. reflexivity.
Defined.

(** ** The team cache *)

Lemma get_missing (path_join : string -> string -> string) (self : TeamCacheManager.t)
    (fs : gmap string CacheFile) (now : Z) (user_name : string) :
  fs !! TeamCacheManager.getCacheFilePath path_join self user_name = None ->
  TeamCacheManager.getCachedTeams path_join self fs now user_name = Returned None.
Proof.
  intros H.
  unfold TeamCacheManager.getCachedTeams, TeamCacheManager.getCachedTeams_body,
    TeamCacheManager.pathExists.
  rewrite H. reflexivity.
Qed.

Lemma get_read_failure (path_join : string -> string -> string) (self : TeamCacheManager.t)
    (fs : gmap string CacheFile) (now : Z) (user_name : string) (file : CacheFile) :
  fs !! TeamCacheManager.getCacheFilePath path_join self user_name = Some file ->
  file = Unreadable \/ file = Unparsable \/ file = Parsed JsonNull ->
  TeamCacheManager.getCachedTeams path_join self fs now user_name = Returned None.
Proof.
  intros H Hfile.
  unfold TeamCacheManager.getCachedTeams, TeamCacheManager.getCachedTeams_body,
    TeamCacheManager.pathExists, TeamCacheManager.readJson.
  rewrite H. destruct Hfile as [-> | [-> | ->]]; reflexivity.
Qed.

(** On a parsed object only the two tests decide. *)
Lemma get_parsed (path_join : string -> string -> string) (self : TeamCacheManager.t)
    (fs : gmap string CacheFile) (now : Z) (user_name : string) (o : JsonObject) :
  fs !! TeamCacheManager.getCacheFilePath path_join self user_name
    = Some (Parsed (JsonObj o)) ->
  TeamCacheManager.getCachedTeams path_join self fs now user_name
  = Returned
      (if js_gt (js_sub now (json_timestamp o)) (TeamCacheManager.cacheTTL self)
       then None
       else if js_strict_ne (json_username o) user_name then None
       else json_teams o).
Proof.
  intros H.
  unfold TeamCacheManager.getCachedTeams, TeamCacheManager.getCachedTeams_body,
    TeamCacheManager.pathExists, TeamCacheManager.readJson.
  rewrite H. cbn.
  destruct (js_gt _ _); [reflexivity |].
  destruct (js_strict_ne _ _); reflexivity.
Qed.

Lemma js_strict_ne_false (a : option string) (b : string) :
  js_strict_ne a b = false <-> a = Some b.
Proof.
  destruct a as [a |]; simpl.
  - rewrite negb_false_iff, String.eqb_eq. split; congruence.
  - split; discriminate.
Qed.

(** C7.  A record tagged with the queried user is served while
    [now - timestamp <= ttl], the boundary [now - timestamp = ttl]
    included, and is absent once [now - timestamp > ttl], one millisecond
    past the boundary already. *)
Theorem cache_get_ttl_boundary (path_join : string -> string -> string)
    (self : TeamCacheManager.t) (fs : gmap string CacheFile) (now : Z)
    (user_name : string) (record : TeamCache) :
  fs !! TeamCacheManager.getCacheFilePath path_join self user_name
    = Some (Parsed (to_json record)) ->
  username record = user_name ->
  (now - timestamp record <= TeamCacheManager.cacheTTL self ->
   TeamCacheManager.getCachedTeams path_join self fs now user_name
     = Returned (Some (teams record)))
  /\ (now - timestamp record = TeamCacheManager.cacheTTL self ->
      TeamCacheManager.getCachedTeams path_join self fs now user_name
        = Returned (Some (teams record)))
  /\ (now - timestamp record > TeamCacheManager.cacheTTL self ->
      TeamCacheManager.getCachedTeams path_join self fs now user_name = Returned None)
  /\ (now - timestamp record = TeamCacheManager.cacheTTL self + 1 ->
      TeamCacheManager.getCachedTeams path_join self fs now user_name = Returned None).
Proof.
  intros Hfile Htag.
  rewrite (get_parsed _ _ _ _ _ _ Hfile).
  cbn [json_timestamp json_username json_teams js_sub js_gt].
  assert (js_strict_ne (Some (username record)) user_name = false) as ->
    by (apply js_strict_ne_false; congruence).
  repeat split; intros Hage;
    destruct (Z.gtb_spec (now - timestamp record) (TeamCacheManager.cacheTTL self));
    (reflexivity || lia).
Qed.

(** With the default 24 hours (86400000 ms): served at exactly the
    boundary, absent one millisecond later. *)
Lemma cache_get_ttl_boundary_witness :
  TeamCacheManager.getCachedTeams Samples.join TeamCacheManager.default
    (Samples.cache_with (Parsed (to_json Samples.bobs_record))) (1000 + 86400000) "bob"
    = Returned (Some [Samples.core])
  /\ TeamCacheManager.getCachedTeams Samples.join TeamCacheManager.default
       (Samples.cache_with (Parsed (to_json Samples.bobs_record))) (1000 + 86400001) "bob"
       = Returned None.
Proof.
  split.
  - apply (cache_get_ttl_boundary Samples.join TeamCacheManager.default
             (Samples.cache_with (Parsed (to_json Samples.bobs_record)))
             (1000 + 86400000) "bob" Samples.bobs_record);
      vm_compute; reflexivity.
  - apply (cache_get_ttl_boundary Samples.join TeamCacheManager.default
             (Samples.cache_with (Parsed (to_json Samples.bobs_record)))
             (1000 + 86400001) "bob" Samples.bobs_record);
      vm_compute; reflexivity.
Defined.

(** C8.  A record whose embedded username differs from the queried one is
    never served: the answer is absent at every time, within the ttl as
    well as past it. *)
Theorem cache_get_other_user (path_join : string -> string -> string)
    (self : TeamCacheManager.t) (fs : gmap string CacheFile) (now : Z)
    (user_name : string) (record : TeamCache) :
  fs !! TeamCacheManager.getCacheFilePath path_join self user_name
    = Some (Parsed (to_json record)) ->
  username record <> user_name ->
  TeamCacheManager.getCachedTeams path_join self fs now user_name = Returned None.
Proof.
  intros Hfile Htag.
  rewrite (get_parsed _ _ _ _ _ _ Hfile).
  cbn [to_json json_timestamp json_username json_teams].
  destruct (js_gt _ _); [reflexivity |].
  destruct (js_strict_ne (Some (username record)) user_name) eqn:E; [reflexivity |].
  apply js_strict_ne_false in E. congruence.
Qed.

(** Scenario D: bob's file holds a record tagged for alice, one second
    old. *)
Lemma cache_get_other_user_witness :
  TeamCacheManager.getCachedTeams Samples.join TeamCacheManager.default
    (Samples.cache_with (Parsed (to_json Samples.alices_record))) 2000 "bob"
    = Returned None.
Proof.
  apply (cache_get_other_user Samples.join TeamCacheManager.default
           (Samples.cache_with (Parsed (to_json Samples.alices_record)))
           2000 "bob" Samples.alices_record).
  - vm_compute. reflexivity.
  - vm_compute. discriminate.
Defined.

(** C9, as the code has it.  [getCachedTeams] never raises: on every
    state of the cache directory, at every time and for every user it
    returns.  What it returns is absent when the file is missing, when it
    cannot be read, when its text is not JSON, when the parsed value is
    [null], and when the parsed record's username is missing or is not
    the queried one.  A parsed record is otherwise taken at its word. *)
Theorem cache_get_never_raises (path_join : string -> string -> string)
    (self : TeamCacheManager.t) (fs : gmap string CacheFile) (now : Z)
    (user_name : string) :
  exists result,
    TeamCacheManager.getCachedTeams path_join self fs now user_name = Returned result
    /\ (fs !! TeamCacheManager.getCacheFilePath path_join self user_name = None ->
        result = None)
    /\ (fs !! TeamCacheManager.getCacheFilePath path_join self user_name = Some Unreadable ->
        result = None)
    /\ (fs !! TeamCacheManager.getCacheFilePath path_join self user_name = Some Unparsable ->
        result = None)
    /\ (fs !! TeamCacheManager.getCacheFilePath path_join self user_name
          = Some (Parsed JsonNull) ->
        result = None)
    /\ (forall o,
          fs !! TeamCacheManager.getCacheFilePath path_join self user_name
            = Some (Parsed (JsonObj o)) ->
          json_username o <> Some user_name ->
          result = None).
Proof.
  destruct (fs !! TeamCacheManager.getCacheFilePath path_join self user_name)
    as [file |] eqn:Hfile.
  - destruct file as [| | [| o]].
    + exists None. split; [eapply get_read_failure; eauto |].
      repeat split; intros; congruence.
    + exists None. split; [eapply get_read_failure; eauto |].
      repeat split; intros; congruence.
    + exists None. split; [eapply get_read_failure; eauto |].
      repeat split; intros; congruence.
    + eexists. split; [apply (get_parsed _ _ _ _ _ _ Hfile) |].
      repeat split; try discriminate.
      intros o' Ho' Htag. injection Ho' as <-.
      destruct (js_gt _ _); [reflexivity |].
      destruct (js_strict_ne (json_username o) user_name) eqn:E; [reflexivity |].
      apply js_strict_ne_false in E. congruence.
  - exists None. split; [apply get_missing, Hfile |].
    repeat split; intros; congruence.
Qed.

Lemma cache_get_never_raises_witness :
  TeamCacheManager.getCachedTeams Samples.join TeamCacheManager.default
    (Samples.cache_with Unparsable) 2000 "bob" = Returned None.
Proof.
  destruct (cache_get_never_raises Samples.join TeamCacheManager.default
              (Samples.cache_with Unparsable) 2000 "bob")
    as [result [Hget [_ [_ [Hcorrupt _]]]]].
  rewrite Hget. f_equal. apply Hcorrupt. vm_compute. reflexivity.
Defined.

(** C9, as the specification words it, fails on a malformed record.
    Bob's file holds valid JSON with his username and his teams and no
    timestamp.  It is the image of no [TeamCache], and it is served: the
    age is [NaN], which is not greater than the ttl. *)
Lemma cache_get_serves_untimed_record :
  (forall record, Samples.untimed_record <> to_json record)
  /\ TeamCacheManager.getCachedTeams Samples.join TeamCacheManager.default
       (Samples.cache_with (Parsed Samples.untimed_record)) 2000 "bob"
       = Returned (Some [Samples.core]).
Proof.
  split.
  - intros record. discriminate.
  - vm_compute. reflexivity.
Qed.

(** ** The team-load stage *)

Lemma logged_say l msg extra fx entry :
  In entry (logged fx) -> In entry (logged (say l msg extra fx)).
Proof. intros H. cbn. apply in_or_app. left. exact H. Qed.

Lemma logged_processThread self notification st entry :
  In entry (logged (snd st)) ->
  In entry (logged (snd (NotificationProcessor.processThread self notification st))).
Proof.
  destruct st as [n fx]. intros H. unfold NotificationProcessor.processThread.
  assert (forall fx0, In entry (logged fx0) ->
            In entry (logged (snd (NotificationProcessor.fetchDetails self notification fx0))))
    as Hfetch.
  { intros fx0 H0. unfold NotificationProcessor.fetchDetails.
    destruct (String.eqb _ _); [| exact H0].
    destruct (GitHubClient.extractPullRequestInfo _ _); [| exact H0].
    destruct (GitHubClient.getPullRequestDetails _ _ _ _); [exact H0 |].
    apply logged_say, H0. }
  cbn [snd] in H. set (fx0 := say debug _ [] fx).
  assert (In entry (logged fx0)) as H0 by apply logged_say, H.
  specialize (Hfetch fx0 H0).
  destruct (NotificationProcessor.fetchDetails _ _ _) as [prDetails fx1]. cbn [snd] in Hfetch.
  destruct (NotificationProcessor.filter _ _ _).
  - destruct (NotificationProcessor.dryRun self); [apply logged_say, Hfetch |].
    destruct (GitHubClient.markThreadAsDone _ _); apply logged_say; exact Hfetch.
  - apply logged_say, Hfetch.
Qed.

Lemma logged_processAll self notifications st entry :
  In entry (logged (snd st)) ->
  In entry (logged (snd (NotificationProcessor.processAll self notifications st))).
Proof.
  unfold NotificationProcessor.processAll.
  revert st. induction notifications as [| n ns IH]; intros st H; [exact H |].
  cbn [fold_left]. apply IH, logged_processThread, H.
Qed.

(** Past the team-load stage only the listing of threads can fail. *)
Lemma fetchAndProcess_returns self fx notifications :
  GitHubClient.getNotifications (NotificationProcessor.githubClient self)
    = Returned notifications ->
  fst (NotificationProcessor.fetchAndProcess self fx) = Returned tt
  /\ forall entry, In entry (logged fx) ->
       In entry (logged (snd (NotificationProcessor.fetchAndProcess self fx))).
Proof.
  intros Hlist. unfold NotificationProcessor.fetchAndProcess. rewrite Hlist.
  destruct notifications as [| n ns].
  - split; [reflexivity |]. intros entry H. apply logged_say, H.
  - pose proof (logged_processAll self (n :: ns)
                  (NotificationProcessor.mkCounts 0 0, fx)) as Hall.
    destruct (NotificationProcessor.processAll _ _ _) as [counts fx'].
    split; [reflexivity |]. intros entry H. apply logged_say, Hall, H.
Qed.

(** C10.  When the team fetch raises, the team-load stage still returns:
    it logs the failure as a warning and leaves the empty snapshot.  The
    run is then the fetch and per-thread stages run on that processor,
    whose decisions are taken against the empty snapshot; if the thread
    list is fetched the run returns normally with the warning in its log;
    and an error leaving the run is the thread listing's own, never the
    team fetch's. *)
Theorem team_load_failure_degrades (client : GitHubClient.t) (currentUser : string)
    (dryRun invalidateCache : bool) (fx : Effects) (e : string) :
  GitHubClient.getUserTeams client currentUser invalidateCache = Thrown e ->
  let self := NotificationProcessor.new client currentUser dryRun invalidateCache in
  let degraded := NotificationProcessor.set_userTeams [] self in
  let warning :=
    mkLog warn ("Failed to load teams for user " +:+ currentUser
                +:+ ", continuing without team data:") [e] in
  let after_load (fx0 : Effects) :=
    say warn (message warning) [e]
      (say info ("Loading teams for user: " +:+ currentUser) [] fx0) in
  (forall fx0,
     NotificationProcessor.loadUserTeams self fx0
     = (Returned tt, (degraded, after_load fx0)))
  /\ NotificationProcessor.userTeams degraded = Some []
  /\ NotificationProcessor.filter degraded = processorFilter currentUser (Some [])
  /\ NotificationProcessor.processNotifications self fx
     = NotificationProcessor.log_and_rethrow
         (let '(r, fx') :=
            NotificationProcessor.fetchAndProcess degraded
              (after_load (say info "Starting thread processing..." [] fx)) in
          (r, (degraded, fx')))
  /\ (forall notifications,
        GitHubClient.getNotifications client = Returned notifications ->
        fst (NotificationProcessor.processNotifications self fx) = Returned tt
        /\ In warning (logged (snd (snd (NotificationProcessor.processNotifications self fx)))))
  /\ (forall e',
        fst (NotificationProcessor.processNotifications self fx) = Thrown e' ->
        GitHubClient.getNotifications client = Thrown e').
Proof.
  intros Hteams self degraded warning after_load.
  assert (forall fx0,
            NotificationProcessor.loadUserTeams self fx0
            = (Returned tt, (degraded, after_load fx0))) as Hload.
  { intros fx0. unfold NotificationProcessor.loadUserTeams. cbn. rewrite Hteams. reflexivity. }
  assert (NotificationProcessor.processNotifications self fx
          = NotificationProcessor.log_and_rethrow
              (let '(r, fx') :=
                 NotificationProcessor.fetchAndProcess degraded
                   (after_load (say info "Starting thread processing..." [] fx)) in
               (r, (degraded, fx')))) as Hrun.
  { unfold NotificationProcessor.processNotifications,
      NotificationProcessor.processNotifications_body.
    rewrite Hload. reflexivity. }
  split; [exact Hload |]. split; [reflexivity |]. split; [reflexivity |].
  split; [exact Hrun |]. split.
  - intros notifications Hlist. rewrite Hrun.
    destruct (fetchAndProcess_returns degraded
                (after_load (say info "Starting thread processing..." [] fx))
                notifications Hlist) as [Hret Hlog].
    destruct (NotificationProcessor.fetchAndProcess degraded _) as [r fx'].
    cbn [fst snd] in Hret, Hlog. subst r. cbn. split; [reflexivity |].
    apply Hlog. subst after_load. cbn. apply in_or_app. right. left. reflexivity.
  - intros e' Hthrown. rewrite Hrun in Hthrown.
    unfold NotificationProcessor.fetchAndProcess in Hthrown.
    change (NotificationProcessor.githubClient degraded) with client in Hthrown.
    destruct (GitHubClient.getNotifications client) as [ns | e0].
    + destruct ns as [| n ns]; [discriminate |].
      destruct (NotificationProcessor.processAll _ _ _). discriminate.
    + cbn in Hthrown. congruence.
Qed.

(** One unread thread for the closed pull request of scenario A; the team
    fetch fails; the run returns, warns, and resolves the thread. *)
Lemma team_load_failure_degrades_witness :
  fst (NotificationProcessor.processNotifications
         (NotificationProcessor.new Samples.client_without_teams "bob" false false)
         Samples.quiet) = Returned tt
  /\ In (mkLog warn "Failed to load teams for user bob, continuing without team data:"
               ["HttpError: rate limit exceeded"])
        (logged (snd (snd (NotificationProcessor.processNotifications
           (NotificationProcessor.new Samples.client_without_teams "bob" false false)
           Samples.quiet))))
  /\ marked (snd (snd (NotificationProcessor.processNotifications
        (NotificationProcessor.new Samples.client_without_teams "bob" false false)
        Samples.quiet))) = ["1001"].
Proof.
  destruct (proj1 (proj2 (proj2 (proj2 (proj2
              (team_load_failure_degrades Samples.client_without_teams "bob" false false
                 Samples.quiet "HttpError: rate limit exceeded" eq_refl)))))
              [Samples.thread "PullRequest"] eq_refl) as [Hreturns Hlogged].
  split; [exact Hreturns |]. split; [exact Hlogged |].
  vm_compute. reflexivity.
Defined.

(** * Further properties of the code *)

(** ** The rules, read backwards *)

Lemma merged_closed_true_inv currentUser userTeams notification prDetails :
  MergedClosedPRFilter.shouldMarkAsDone currentUser userTeams notification prDetails = true ->
  exists pr : PullRequestPayload,
    prDetails = Some pr
    /\ type (subject notification) = "PullRequest"
    /\ (state pr = closed \/ merged pr = true)
    /\ MergedClosedPRFilter.isDirectReviewer currentUser userTeams pr = false
    /\ login (user pr) <> currentUser
    /\ ~ In currentUser (map login (assignees pr)).
Proof.
  intros Hfires.
  destruct (String.eqb_spec (type (subject notification)) "PullRequest") as [Hkind | Hkind].
  2: { rewrite merged_closed_abstains in Hfires by (left; exact Hkind). discriminate. }
  destruct prDetails as [pr |].
  2: { rewrite merged_closed_abstains in Hfires by (right; reflexivity). discriminate. }
  rewrite (merged_closed_as_conjunction _ _ _ _ Hkind) in Hfires.
  rewrite !andb_true_iff, !negb_true_iff, orb_true_iff in Hfires.
  rewrite PRState_eqb_eq, Bool.eqb_true_iff, String.eqb_neq, some_login_not_In in Hfires.
  exists pr. tauto.
Qed.

Lemma renovate_true_inv currentUser userTeams notification prDetails :
  RenovatePRFilter.shouldMarkAsDone currentUser userTeams notification prDetails = true ->
  exists pr : PullRequestPayload,
    prDetails = Some pr
    /\ type (subject notification) = "PullRequest"
    /\ login (user pr) = "renovate-sh-app[bot]"
    /\ user_type pr = Some "Bot"
    /\ ~ In currentUser (map login (requested_reviewers pr))
    /\ login (user pr) <> currentUser
    /\ ~ In currentUser (map login (assignees pr)).
Proof.
  intros Hfires.
  destruct (String.eqb_spec (type (subject notification)) "PullRequest") as [Hkind | Hkind].
  2: { rewrite renovate_abstains in Hfires by (left; exact Hkind). discriminate. }
  destruct prDetails as [pr |].
  2: { rewrite renovate_abstains in Hfires by (right; reflexivity). discriminate. }
  rewrite (renovate_as_conjunction _ _ _ _ Hkind) in Hfires.
  rewrite !andb_true_iff, !negb_true_iff in Hfires.
  rewrite String.eqb_eq, String.eqb_neq, !some_login_not_In in Hfires.
  exists pr. repeat split; try tauto.
  destruct Hfires as [[[[_ Hbot] _] _] _].
  unfold RenovatePRFilter.type_is_Bot in Hbot.
  destruct (user_type pr) as [t |]; [| discriminate].
  apply String.eqb_eq in Hbot. congruence.
Qed.

Lemma processorFilter_true_inv currentUser userTeams notification prDetails :
  processorFilter currentUser userTeams notification prDetails = true ->
  MergedClosedPRFilter.shouldMarkAsDone currentUser userTeams notification prDetails = true
  \/ RenovatePRFilter.shouldMarkAsDone currentUser userTeams notification prDetails = true.
Proof. rewrite processorFilter_orb. apply orb_true_iff. Qed.

(** X1.  A user who is individually asked for a review, or is the author,
    or is an assignee never has the thread resolved: the Composite
    Decision keeps it for every notification, PR state, author and team
    snapshot. *)
Theorem involved_user_keeps_thread (currentUser : string)
    (userTeams : option (list GitHubTeam)) (notification : GitHubNotification)
    (prDetails : PullRequestPayload) :
  In currentUser (map login (requested_reviewers prDetails))
  \/ login (user prDetails) = currentUser
  \/ In currentUser (map login (assignees prDetails)) ->
  processorFilter currentUser userTeams notification (Some prDetails) = false.
Proof.
  intros Hinvolved.
  destruct (processorFilter currentUser userTeams notification (Some prDetails)) eqn:E;
    [| reflexivity].
  exfalso. apply processorFilter_true_inv in E as [E | E].
  - apply merged_closed_true_inv in E as (pr & Hpr & _ & _ & Hrev & Hauthor & Hassigned).
    injection Hpr as <-.
    assert (~ In currentUser (map login (requested_reviewers prDetails))).
    { intros Hin.
      assert (MergedClosedPRFilter.isDirectReviewer currentUser userTeams prDetails = true)
        by (apply isDirectReviewer_spec; left; exact Hin).
      congruence. }
    tauto.
  - apply renovate_true_inv in E as (pr & Hpr & _ & _ & _ & Hrev & Hauthor & Hassigned).
    injection Hpr as <-. tauto.
Qed.

Lemma involved_user_keeps_thread_witness :
  processorFilter "alice" (Some []) (Samples.thread "PullRequest")
                  (Some Samples.scenario_A) = false.
Proof.
  apply involved_user_keeps_thread. right. left. reflexivity.
Defined.

(** X2.  A pull request that is open and unmerged and not by the bot
    account is never resolved. *)
Theorem open_pr_not_by_bot_is_kept (currentUser : string)
    (userTeams : option (list GitHubTeam)) (notification : GitHubNotification)
    (prDetails : PullRequestPayload) :
  state prDetails = open ->
  merged prDetails = false ->
  login (user prDetails) <> "renovate-sh-app[bot]" \/ user_type prDetails <> Some "Bot" ->
  processorFilter currentUser userTeams notification (Some prDetails) = false.
Proof.
  intros Hstate Hmerged Hhuman.
  destruct (processorFilter currentUser userTeams notification (Some prDetails)) eqn:E;
    [| reflexivity].
  exfalso. apply processorFilter_true_inv in E as [E | E].
  - apply merged_closed_true_inv in E as (pr & Hpr & _ & Hdone & _).
    injection Hpr as <-. destruct Hdone; congruence.
  - apply renovate_true_inv in E as (pr & Hpr & _ & Hlogin & Htype & _).
    injection Hpr as <-. tauto.
Qed.

Lemma open_pr_not_by_bot_is_kept_witness :
  processorFilter "bob" None (Samples.thread "PullRequest")
    (Some (of_declared (Samples.pull open Samples.alice [] [] []))) = false.
Proof.
  apply open_pr_not_by_bot_is_kept; [reflexivity | reflexivity |].
  left. discriminate.
Defined.

(** X3.  The composite is the disjunction of its rules, so their order
    cannot change a decision: two lists of rules that are permutations of
    each other decide alike. *)
Theorem composite_order_immaterial (filters filters' : list NotificationFilter)
    (notification : GitHubNotification) (prDetails : option PullRequestPayload) :
  Permutation filters filters' ->
  CompositeFilter.shouldMarkAsDone filters notification prDetails
  = CompositeFilter.shouldMarkAsDone filters' notification prDetails.
Proof.
  induction 1 as [| f l l' _ IH | f g l | l l' l'' _ IH1 _ IH2]; cbn.
  - reflexivity.
  - rewrite IH. reflexivity.
  - destruct (g notification prDetails), (f notification prDetails); reflexivity.
  - congruence.
Qed.

Lemma composite_order_immaterial_witness :
  CompositeFilter.shouldMarkAsDone
    [ MergedClosedPRFilter.shouldMarkAsDone "bob" None;
      RenovatePRFilter.shouldMarkAsDone "bob" None ]
    (Samples.thread "PullRequest") (Some Samples.scenario_C)
  = CompositeFilter.shouldMarkAsDone
      [ RenovatePRFilter.shouldMarkAsDone "bob" None;
        MergedClosedPRFilter.shouldMarkAsDone "bob" None ]
      (Samples.thread "PullRequest") (Some Samples.scenario_C).
Proof.
  apply composite_order_immaterial. apply perm_swap.
Defined.

(** X4.  Knowing more teams can only keep more: if every team of one
    snapshot is in another and the decision under the larger snapshot is
    to resolve, the decision under the smaller one is to resolve as well.
    The accessor's [null] counts as the snapshot without teams. *)
Theorem fewer_teams_resolve_no_less (currentUser : string)
    (userTeams userTeams' : option (list GitHubTeam)) (notification : GitHubNotification)
    (prDetails : option PullRequestPayload) :
  (forall team, In team (snapshot userTeams) -> In team (snapshot userTeams')) ->
  processorFilter currentUser userTeams' notification prDetails = true ->
  processorFilter currentUser userTeams notification prDetails = true.
Proof.
  intros Hsub Hfires. rewrite processorFilter_orb. apply orb_true_iff.
  apply processorFilter_true_inv in Hfires as [E | E]; [left | right; exact E].
  apply merged_closed_true_inv in E as (pr & -> & Hkind & Hdone & Hrev & Hauthor & Hassigned).
  rewrite (merged_closed_as_conjunction _ _ _ _ Hkind).
  rewrite !andb_true_iff, !negb_true_iff, orb_true_iff.
  rewrite PRState_eqb_eq, Bool.eqb_true_iff, String.eqb_neq, some_login_not_In.
  repeat split; try assumption.
  destruct (MergedClosedPRFilter.isDirectReviewer currentUser userTeams pr) eqn:E;
    [| reflexivity].
  apply isDirectReviewer_spec in E.
  assert (MergedClosedPRFilter.isDirectReviewer currentUser userTeams' pr = true);
    [| congruence].
  apply isDirectReviewer_spec. destruct E as [E | E]; [left; exact E | right].
  apply isTeamReviewer_spec in E as (ut & rt & Hut & Hrt & Hm).
  apply isTeamReviewer_spec. exists ut, rt. auto.
Qed.

Lemma fewer_teams_resolve_no_less_witness :
  processorFilter "bob" None (Samples.thread "PullRequest") (Some Samples.scenario_A) = true.
Proof.
  apply (fewer_teams_resolve_no_less "bob" None (Some [Samples.core])).
  - intros team H. destruct H.
  - reflexivity.
Defined.

(** ** The per-thread loop *)

Lemma marked_say l msg extra fx : marked (say l msg extra fx) = marked fx.
Proof. reflexivity. Qed.

Lemma fetchDetails_marked self notification fx :
  marked (snd (NotificationProcessor.fetchDetails self notification fx)) = marked fx.
Proof.
  unfold NotificationProcessor.fetchDetails.
  destruct (String.eqb _ _); [| reflexivity].
  destruct (GitHubClient.extractPullRequestInfo _ _); [| reflexivity].
  destruct (GitHubClient.getPullRequestDetails _ _ _ _); reflexivity.
Qed.

Lemma fetchDetails_kind self notification fx d :
  fst (NotificationProcessor.fetchDetails self notification fx) = Some d ->
  type (subject notification) = "PullRequest".
Proof.
  unfold NotificationProcessor.fetchDetails.
  destruct (String.eqb_spec (type (subject notification)) "PullRequest") as [H | H];
    [intros _; exact H | discriminate].
Qed.

Lemma filter_true_kind self notification prDetails :
  NotificationProcessor.filter self notification prDetails = true ->
  type (subject notification) = "PullRequest" /\ prDetails <> None.
Proof.
  unfold NotificationProcessor.filter. intros H.
  apply processorFilter_true_inv in H as [H | H].
  - apply merged_closed_true_inv in H as (pr & -> & Hkind & _). split; [exact Hkind | discriminate].
  - apply renovate_true_inv in H as (pr & -> & Hkind & _). split; [exact Hkind | discriminate].
Qed.

(** The four ways one iteration can end: the thread is kept; it would be
    marked (dry run); it is marked; marking it fails. *)
Lemma processThread_step self notification counts fx :
  let r := NotificationProcessor.processThread self notification (counts, fx) in
  let p := NotificationProcessor.processedCount in
  let m := NotificationProcessor.markedAsDoneCount in
  (p (fst r) = S (p counts) /\ m (fst r) = m counts /\ marked (snd r) = marked fx)
  \/ (NotificationProcessor.dryRun self = true
      /\ p (fst r) = S (p counts) /\ m (fst r) = S (m counts)
      /\ marked (snd r) = marked fx)
  \/ (NotificationProcessor.dryRun self = false
      /\ type (subject notification) = "PullRequest"
      /\ p (fst r) = S (p counts) /\ m (fst r) = S (m counts)
      /\ marked (snd r) = (marked fx ++ [id notification])%list)
  \/ (NotificationProcessor.dryRun self = false
      /\ fst r = counts /\ marked (snd r) = marked fx).
Proof.
  cbv zeta. unfold NotificationProcessor.processThread.
  pose proof (fetchDetails_marked self notification
                (say debug ("Processing thread " +:+ id notification +:+ ": "
                            +:+ title (subject notification)) [] fx)) as Hm.
  destruct (NotificationProcessor.fetchDetails self notification _) as [prDetails fx1].
  cbn [snd] in Hm. rewrite marked_say in Hm.
  destruct (NotificationProcessor.filter self notification prDetails) eqn:Hfilter.
  - destruct (NotificationProcessor.dryRun self) eqn:Hdry.
    + right. left. cbn. auto.
    + destruct (GitHubClient.markThreadAsDone _ _).
      * right. right. left. cbn. rewrite Hm.
        apply filter_true_kind in Hfilter as [Hkind _]. auto.
      * right. right. right. cbn. auto.
  - left. cbn. auto.
Qed.

(** X5.  The two counters of a run are consistent: whatever the gateway
    answers, the loop counts at most one processed thread per
    notification and never more marked threads than processed ones. *)
Theorem counters_bounded (self : NotificationProcessor.t)
    (notifications : list GitHubNotification) (fx : Effects) :
  let counts :=
    fst (NotificationProcessor.processAll self notifications
           (NotificationProcessor.mkCounts 0 0, fx)) in
  (NotificationProcessor.markedAsDoneCount counts
   <= NotificationProcessor.processedCount counts)%nat
  /\ (NotificationProcessor.processedCount counts <= length notifications)%nat.
Proof.
  cbv zeta.
  assert (forall ns c fx0,
            let c' := fst (NotificationProcessor.processAll self ns (c, fx0)) in
            (NotificationProcessor.processedCount c <= NotificationProcessor.processedCount c'
             <= NotificationProcessor.processedCount c + length ns)%nat
            /\ (NotificationProcessor.markedAsDoneCount c
                <= NotificationProcessor.markedAsDoneCount c')%nat
            /\ (NotificationProcessor.markedAsDoneCount c'
                - NotificationProcessor.markedAsDoneCount c
                <= NotificationProcessor.processedCount c'
                   - NotificationProcessor.processedCount c)%nat) as Hgen.
  { induction ns as [| n ns IH]; intros c fx0; cbn [length].
    - cbn. lia.
    - unfold NotificationProcessor.processAll. cbn [fold_left].
      pose proof (processThread_step self n c fx0) as Hstep. cbv zeta in Hstep.
      destruct (NotificationProcessor.processThread self n (c, fx0)) as [c1 fx1].
      specialize (IH c1 fx1). cbv zeta in IH.
      unfold NotificationProcessor.processAll in IH. cbn [fst snd] in Hstep.
      destruct Hstep as [H | [H | [H | H]]].
      + destruct H as (Hp & Hm & _). lia.
      + destruct H as (_ & Hp & Hm & _). lia.
      + destruct H as (_ & _ & Hp & Hm & _). lia.
      + destruct H as (_ & -> & _). lia. }
  specialize (Hgen notifications (NotificationProcessor.mkCounts 0 0) fx).
  cbn in Hgen. lia.
Qed.

(** X6.  In preview mode the loop never marks a thread: the identifiers
    handed to [markThreadAsDone] are those of before the run. *)
Theorem dry_run_marks_nothing (self : NotificationProcessor.t)
    (notifications : list GitHubNotification)
    (st : NotificationProcessor.Counts * Effects) :
  NotificationProcessor.dryRun self = true ->
  marked (snd (NotificationProcessor.processAll self notifications st)) = marked (snd st).
Proof.
  intros Hdry. revert st.
  induction notifications as [| n ns IH]; intros [c fx]; [reflexivity |].
  unfold NotificationProcessor.processAll. cbn [fold_left].
  pose proof (processThread_step self n c fx) as Hstep. cbv zeta in Hstep.
  destruct (NotificationProcessor.processThread self n (c, fx)) as [c1 fx1].
  specialize (IH (c1, fx1)). unfold NotificationProcessor.processAll in IH.
  rewrite IH. cbn [fst snd] in *.
  destruct Hstep as [H | [H | [H | H]]].
  - tauto.
  - tauto.
  - destruct H as (Hwet & _). congruence.
  - tauto.
Qed.

(** X7.  Only pull-request threads are ever marked: an identifier the
    loop has added to the marked ones is the [id] of a notification of
    the list whose subject type is "PullRequest". *)
Theorem only_pull_requests_marked (self : NotificationProcessor.t)
    (notifications : list GitHubNotification)
    (st : NotificationProcessor.Counts * Effects) (threadId : string) :
  In threadId (marked (snd (NotificationProcessor.processAll self notifications st))) ->
  In threadId (marked (snd st))
  \/ exists notification,
       In notification notifications
       /\ id notification = threadId
       /\ type (subject notification) = "PullRequest".
Proof.
  revert st.
  induction notifications as [| n ns IH]; intros [c fx] Hin; [left; exact Hin |].
  unfold NotificationProcessor.processAll in Hin. cbn [fold_left] in Hin.
  pose proof (processThread_step self n c fx) as Hstep. cbv zeta in Hstep.
  destruct (NotificationProcessor.processThread self n (c, fx)) as [c1 fx1].
  destruct (IH (c1, fx1) Hin) as [Hold | (n' & Hn' & Hid & Hkind)].
  - cbn [fst snd] in *.
    destruct Hstep as [H | [H | [H | H]]].
    + left. destruct H as (_ & _ & <-). exact Hold.
    + left. destruct H as (_ & _ & _ & <-). exact Hold.
    + destruct H as (_ & Hkind & _ & _ & Hm). rewrite Hm in Hold.
      apply in_app_or in Hold as [Hold | [<- | []]]; [left; exact Hold |].
      right. exists n. split; [left; reflexivity | auto].
    + left. destruct H as (_ & _ & <-). exact Hold.
  - right. exists n'. split; [right; exact Hn' | auto].
Qed.

(** X8.  Outside preview mode the count the summary reports is the number
    of threads the loop has marked. *)
Theorem marked_count_is_exact (self : NotificationProcessor.t)
    (notifications : list GitHubNotification) (fx : Effects) :
  NotificationProcessor.dryRun self = false ->
  let r := NotificationProcessor.processAll self notifications
             (NotificationProcessor.mkCounts 0 0, fx) in
  length (marked (snd r))
  = (length (marked fx) + NotificationProcessor.markedAsDoneCount (fst r))%nat.
Proof.
  intros Hwet. cbv zeta.
  assert (forall ns c fx0,
            let r := NotificationProcessor.processAll self ns (c, fx0) in
            (length (marked (snd r)) + NotificationProcessor.markedAsDoneCount c
             = length (marked fx0) + NotificationProcessor.markedAsDoneCount (fst r))%nat)
    as Hgen.
  { induction ns as [| n ns IH]; intros c fx0; [cbn; lia |].
    cbv zeta. unfold NotificationProcessor.processAll. cbn [fold_left].
    pose proof (processThread_step self n c fx0) as Hstep. cbv zeta in Hstep.
    destruct (NotificationProcessor.processThread self n (c, fx0)) as [c1 fx1].
    specialize (IH c1 fx1). cbv zeta in IH. unfold NotificationProcessor.processAll in IH.
    cbn [fst snd] in Hstep.
    destruct Hstep as [H | [H | [H | H]]].
    - destruct H as (_ & Hm & Hmarked). rewrite <- Hmarked, <- Hm. exact IH.
    - destruct H as (Hdry & _). congruence.
    - destruct H as (_ & _ & _ & Hm & Hmarked).
      assert (length (marked fx1) = S (length (marked fx0))) as Hlen
        by (rewrite Hmarked, length_app; cbn; lia).
      lia.
    - destruct H as (_ & -> & Hmarked). rewrite <- Hmarked. exact IH. }
  specialize (Hgen notifications (NotificationProcessor.mkCounts 0 0) fx).
  cbn in Hgen. lia.
Qed.

Lemma dry_run_marks_nothing_witness :
  marked (snd (NotificationProcessor.processAll
                 (NotificationProcessor.new Samples.client_without_teams "bob" true false)
                 [Samples.thread "PullRequest"]
                 (NotificationProcessor.mkCounts 0 0, Samples.quiet))) = [].
Proof.
  apply (dry_run_marks_nothing
           (NotificationProcessor.new Samples.client_without_teams "bob" true false)
           [Samples.thread "PullRequest"]
           (NotificationProcessor.mkCounts 0 0, Samples.quiet)).
  reflexivity.
Defined.

Lemma only_pull_requests_marked_witness :
  In "1001" (marked Samples.quiet)
  \/ exists notification,
       In notification [Samples.thread "Issue"; Samples.thread "PullRequest"]
       /\ id notification = "1001"
       /\ type (subject notification) = "PullRequest".
Proof.
  apply (only_pull_requests_marked
           (NotificationProcessor.new Samples.client_without_teams "bob" false false)
           [Samples.thread "Issue"; Samples.thread "PullRequest"]
           (NotificationProcessor.mkCounts 0 0, Samples.quiet) "1001").
  vm_compute. left. reflexivity.
Defined.

Lemma marked_count_is_exact_witness :
  length (marked (snd (NotificationProcessor.processAll
                         (NotificationProcessor.new Samples.client_without_teams "bob"
                            false false)
                         [Samples.thread "Issue"; Samples.thread "PullRequest"]
                         (NotificationProcessor.mkCounts 0 0, Samples.quiet))))
  = (length (marked Samples.quiet)
     + NotificationProcessor.markedAsDoneCount
         (fst (NotificationProcessor.processAll
                 (NotificationProcessor.new Samples.client_without_teams "bob" false false)
                 [Samples.thread "Issue"; Samples.thread "PullRequest"]
                 (NotificationProcessor.mkCounts 0 0, Samples.quiet))))%nat.
Proof.
  apply (marked_count_is_exact
           (NotificationProcessor.new Samples.client_without_teams "bob" false false)
           [Samples.thread "Issue"; Samples.thread "PullRequest"] Samples.quiet).
  reflexivity.
Defined.

(** ** The run as a whole *)

Lemma loadUserTeams_returns self fx :
  exists self' fx',
    NotificationProcessor.loadUserTeams self fx = (Returned tt, (self', fx'))
    /\ NotificationProcessor.githubClient self' = NotificationProcessor.githubClient self
    /\ NotificationProcessor.dryRun self' = NotificationProcessor.dryRun self
    /\ marked fx' = marked fx.
Proof.
  unfold NotificationProcessor.loadUserTeams.
  destruct (NotificationProcessor.userTeams self); [eauto 6 |].
  destruct (GitHubClient.getUserTeams _ _ _); eexists; eexists; (split; [reflexivity |]);
    cbn; auto.
Qed.

(** X9.  A run fails exactly when the listing of unread threads fails,
    and then with the listing's error and with no thread marked: no
    failure of the team fetch, of a PR-detail fetch or of a
    [markThreadAsDone] call leaves [processNotifications]. *)
Theorem run_fails_only_with_listing (self : NotificationProcessor.t) (fx : Effects)
    (e : string) :
  (fst (NotificationProcessor.processNotifications self fx) = Thrown e
   <-> GitHubClient.getNotifications (NotificationProcessor.githubClient self) = Thrown e)
  /\ (fst (NotificationProcessor.processNotifications self fx) = Thrown e ->
      marked (snd (snd (NotificationProcessor.processNotifications self fx))) = marked fx).
Proof.
  unfold NotificationProcessor.processNotifications,
    NotificationProcessor.processNotifications_body.
  destruct (loadUserTeams_returns self (say info "Starting thread processing..." [] fx))
    as (self' & fx' & -> & Hclient & _ & Hmarked).
  cbn in Hmarked.
  unfold NotificationProcessor.fetchAndProcess. rewrite Hclient.
  destruct (GitHubClient.getNotifications (NotificationProcessor.githubClient self))
    as [ns | e0].
  - destruct ns as [| n ns].
    + cbn. split; [split; discriminate | discriminate].
    + destruct (NotificationProcessor.processAll self' (n :: ns) _) as [c fx1].
      cbn. split; [split; discriminate | discriminate].
  - cbn. split; [split; congruence |]. intros _. exact Hmarked.
Qed.

Lemma run_fails_only_with_listing_witness :
  fst (NotificationProcessor.processNotifications
         (NotificationProcessor.new Samples.client_without_teams "bob" false false)
         Samples.quiet) <> Thrown "HttpError: rate limit exceeded".
Proof.
  intros Hthrown.
  apply (proj1 (proj1 (run_fails_only_with_listing
           (NotificationProcessor.new Samples.client_without_teams "bob" false false)
           Samples.quiet "HttpError: rate limit exceeded"))) in Hthrown.
  discriminate Hthrown.
Defined.

(** X10.  A thread whose PR detail cannot be had (it is not a pull
    request, its subject URL does not parse, or the detail fetch throws)
    is counted as processed and kept: nothing is marked and nothing is
    raised. *)
Theorem thread_without_details_is_kept (self : NotificationProcessor.t)
    (notification : GitHubNotification) (counts : NotificationProcessor.Counts)
    (fx : Effects) :
  type (subject notification) <> "PullRequest"
  \/ GitHubClient.extractPullRequestInfo (NotificationProcessor.githubClient self)
       (subject_url (subject notification)) = None
  \/ (exists prInfo e,
        GitHubClient.extractPullRequestInfo (NotificationProcessor.githubClient self)
          (subject_url (subject notification)) = Some prInfo
        /\ GitHubClient.getPullRequestDetails (NotificationProcessor.githubClient self)
             (GitHubClient.pr_owner prInfo) (GitHubClient.pr_repo prInfo)
             (GitHubClient.pullNumber prInfo) = Thrown e) ->
  let r := NotificationProcessor.processThread self notification (counts, fx) in
  fst r = NotificationProcessor.mkCounts
            (S (NotificationProcessor.processedCount counts))
            (NotificationProcessor.markedAsDoneCount counts)
  /\ marked (snd r) = marked fx.
Proof.
  intros Hmissing. cbv zeta. unfold NotificationProcessor.processThread.
  set (fx0 := say debug _ [] fx).
  assert (fst (NotificationProcessor.fetchDetails self notification fx0) = None) as Hnone.
  { unfold NotificationProcessor.fetchDetails.
    destruct Hmissing as [H | [H | (prInfo & e & H1 & H2)]].
    - apply String.eqb_neq in H. rewrite H. reflexivity.
    - rewrite H. destruct (String.eqb _ _); reflexivity.
    - rewrite H1, H2. destruct (String.eqb _ _); reflexivity. }
  pose proof (fetchDetails_marked self notification fx0) as Hm.
  destruct (NotificationProcessor.fetchDetails self notification fx0) as [prDetails fx1].
  cbn [fst snd] in Hnone, Hm. subst prDetails.
  assert (NotificationProcessor.filter self notification None = false) as ->.
  { destruct (NotificationProcessor.filter self notification None) eqn:E; [| reflexivity].
    apply filter_true_kind in E as [_ E]. congruence. }
  cbn. split; [reflexivity | exact Hm].
Qed.

Lemma thread_without_details_is_kept_witness :
  fst (NotificationProcessor.processThread
         (NotificationProcessor.new Samples.client_without_teams "bob" false false)
         (Samples.thread "Issue") (NotificationProcessor.mkCounts 0 0, Samples.quiet))
  = NotificationProcessor.mkCounts 1 0
  /\ marked (snd (NotificationProcessor.processThread
         (NotificationProcessor.new Samples.client_without_teams "bob" false false)
         (Samples.thread "Issue") (NotificationProcessor.mkCounts 0 0, Samples.quiet)))
     = [].
Proof.
  apply (thread_without_details_is_kept
           (NotificationProcessor.new Samples.client_without_teams "bob" false false)
           (Samples.thread "Issue") (NotificationProcessor.mkCounts 0 0) Samples.quiet).
  left. discriminate.
Defined.

(** ** Writing the cache *)

(** What [getCachedTeams] answers depends on the user's own file only. *)
Lemma get_depends_on_own_file (path_join : string -> string -> string)
    (self : TeamCacheManager.t) (fs fs' : gmap string CacheFile) (now : Z)
    (user_name : string) :
  fs' !! TeamCacheManager.getCacheFilePath path_join self user_name
    = fs !! TeamCacheManager.getCacheFilePath path_join self user_name ->
  TeamCacheManager.getCachedTeams path_join self fs' now user_name
  = TeamCacheManager.getCachedTeams path_join self fs now user_name.
Proof.
  intros H.
  unfold TeamCacheManager.getCachedTeams, TeamCacheManager.getCachedTeams_body,
    TeamCacheManager.pathExists, TeamCacheManager.readJson.
  rewrite H. reflexivity.
Qed.

Lemma put_file_other (p q : string) (file : option CacheFile) (fs : gmap string CacheFile) :
  p <> q -> put_file p file fs !! q = fs !! q.
Proof.
  intros Hne. destruct file as [f |]; cbn.
  - apply lookup_insert_ne, Hne.
  - apply lookup_delete_ne, Hne.
Qed.

Lemma save_touches_own_file_only (path_join : string -> string -> string)
    (self : TeamCacheManager.t) (io : DiskIO) (fs : gmap string CacheFile) (now : Z)
    (user_name : string) (saved : list GitHubTeam) (q : string) :
  TeamCacheManager.getCacheFilePath path_join self user_name <> q ->
  snd (TeamCacheManager.saveTeamsToCache path_join self io fs now user_name saved) !! q
  = fs !! q.
Proof.
  intros Hne. unfold TeamCacheManager.saveTeamsToCache, TeamCacheManager.fs_writeJson.
  destruct (ensureDir io); [| reflexivity].
  destruct (writeJson io); cbn.
  - apply lookup_insert_ne, Hne.
  - apply put_file_other, Hne.
Qed.

Lemma invalidate_touches_own_file_only (path_join : string -> string -> string)
    (self : TeamCacheManager.t) (io : DiskIO) (fs : gmap string CacheFile)
    (user_name : string) (q : string) :
  TeamCacheManager.getCacheFilePath path_join self user_name <> q ->
  snd (TeamCacheManager.invalidateCache path_join self io fs user_name) !! q = fs !! q.
Proof.
  intros Hne. unfold TeamCacheManager.invalidateCache, TeamCacheManager.pathExists,
    TeamCacheManager.fs_remove.
  destruct (fs !! TeamCacheManager.getCacheFilePath path_join self user_name);
    [| reflexivity].
  destruct (remove io); cbn.
  - apply lookup_delete_ne, Hne.
  - apply put_file_other, Hne.
Qed.

Lemma save_success (path_join : string -> string -> string)
    (self : TeamCacheManager.t) (io : DiskIO) (fs : gmap string CacheFile) (now : Z)
    (user_name : string) (saved : list GitHubTeam) (u : unit) :
  ensureDir io = Returned u ->
  writeJson io = Done ->
  TeamCacheManager.saveTeamsToCache path_join self io fs now user_name saved
  = (Returned tt,
     <[TeamCacheManager.getCacheFilePath path_join self user_name :=
         Parsed (to_json {| teams := saved; timestamp := now; username := user_name |})]> fs).
Proof.
  intros Hdir Hwrite. unfold TeamCacheManager.saveTeamsToCache, TeamCacheManager.fs_writeJson.
  rewrite Hdir, Hwrite. reflexivity.
Qed.

(** X11.  Save, then get.  When the directory can be made and the file
    written, a later [getCachedTeams] for the same user answers the saved
    teams as long as the time elapsed since the save is at most the ttl,
    and absent after that, whatever the cache held before. *)
Theorem save_then_get (path_join : string -> string -> string)
    (self : TeamCacheManager.t) (io : DiskIO) (fs : gmap string CacheFile)
    (now later : Z) (user_name : string) (saved : list GitHubTeam) :
  ensureDir io = Returned tt ->
  writeJson io = Done ->
  TeamCacheManager.getCachedTeams path_join self
    (snd (TeamCacheManager.saveTeamsToCache path_join self io fs now user_name saved))
    later user_name
  = Returned (if later - now >? TeamCacheManager.cacheTTL self then None else Some saved).
Proof.
  intros Hdir Hwrite.
  rewrite (save_success _ _ _ _ _ _ _ _ Hdir Hwrite). cbn [snd].
  rewrite (get_parsed path_join self _ later user_name
             {| json_teams := Some saved; json_timestamp := Some now;
                json_username := Some user_name |}).
  - cbn [json_timestamp json_username json_teams js_sub js_gt].
    assert (js_strict_ne (Some user_name) user_name = false) as ->
      by (apply js_strict_ne_false; reflexivity).
    reflexivity.
  - apply lookup_insert_eq.
Qed.

Lemma save_then_get_witness :
  TeamCacheManager.getCachedTeams Samples.join TeamCacheManager.default
    (snd (TeamCacheManager.saveTeamsToCache Samples.join TeamCacheManager.default
            Fixtures.healthy (Samples.cache_with Unparsable) 5000 "bob" [Samples.core]))
    6000 "bob"
  = Returned (if 6000 - 5000 >? TeamCacheManager.cacheTTL TeamCacheManager.default
              then None else Some [Samples.core]).
Proof.
  apply (save_then_get Samples.join TeamCacheManager.default Fixtures.healthy
           (Samples.cache_with Unparsable) 5000 6000 "bob" [Samples.core]);
    reflexivity.
Defined.

(** X12.  Saving or invalidating one user's snapshot never changes what
    the cache answers for a user whose file is another one, whether the
    disk call succeeds or fails. *)
Theorem other_users_cache_untouched (path_join : string -> string -> string)
    (self : TeamCacheManager.t) (io : DiskIO) (fs : gmap string CacheFile)
    (now later : Z) (user_name other : string) (saved : list GitHubTeam) :
  TeamCacheManager.getCacheFilePath path_join self user_name
    <> TeamCacheManager.getCacheFilePath path_join self other ->
  TeamCacheManager.getCachedTeams path_join self
    (snd (TeamCacheManager.saveTeamsToCache path_join self io fs now user_name saved))
    later other
  = TeamCacheManager.getCachedTeams path_join self fs later other
  /\ TeamCacheManager.getCachedTeams path_join self
       (snd (TeamCacheManager.invalidateCache path_join self io fs user_name)) later other
     = TeamCacheManager.getCachedTeams path_join self fs later other.
Proof.
  intros Hne. split; apply get_depends_on_own_file.
  - apply save_touches_own_file_only, Hne.
  - apply invalidate_touches_own_file_only, Hne.
Qed.

Lemma other_users_cache_untouched_witness :
  TeamCacheManager.getCachedTeams Samples.join TeamCacheManager.default
    (snd (TeamCacheManager.saveTeamsToCache Samples.join TeamCacheManager.default
            Fixtures.broken (Samples.cache_with (Parsed (to_json Samples.bobs_record)))
            5000 "alice" []))
    6000 "bob"
  = TeamCacheManager.getCachedTeams Samples.join TeamCacheManager.default
      (Samples.cache_with (Parsed (to_json Samples.bobs_record))) 6000 "bob"
  /\ TeamCacheManager.getCachedTeams Samples.join TeamCacheManager.default
       (snd (TeamCacheManager.invalidateCache Samples.join TeamCacheManager.default
               Fixtures.broken (Samples.cache_with (Parsed (to_json Samples.bobs_record)))
               "alice"))
       6000 "bob"
     = TeamCacheManager.getCachedTeams Samples.join TeamCacheManager.default
         (Samples.cache_with (Parsed (to_json Samples.bobs_record))) 6000 "bob".
Proof.
  apply (other_users_cache_untouched Samples.join TeamCacheManager.default Fixtures.broken
           (Samples.cache_with (Parsed (to_json Samples.bobs_record)))
           5000 6000 "alice" "bob" []).
  vm_compute. discriminate.
Defined.

(** X13.  Invalidate, then get.  When the removal succeeds the cache
    answers absent for that user; and when the user has no file,
    [invalidateCache] leaves the directory as it is without calling the
    disk. *)
Theorem invalidate_then_get (path_join : string -> string -> string)
    (self : TeamCacheManager.t) (io : DiskIO) (fs : gmap string CacheFile)
    (now : Z) (user_name : string) :
  (remove io = Done ->
   TeamCacheManager.getCachedTeams path_join self
     (snd (TeamCacheManager.invalidateCache path_join self io fs user_name)) now user_name
   = Returned None)
  /\ (fs !! TeamCacheManager.getCacheFilePath path_join self user_name = None ->
      TeamCacheManager.invalidateCache path_join self io fs user_name = (Returned tt, fs)).
Proof.
  split.
  - intros Hremove. apply get_missing.
    unfold TeamCacheManager.invalidateCache, TeamCacheManager.pathExists,
      TeamCacheManager.fs_remove.
    destruct (fs !! TeamCacheManager.getCacheFilePath path_join self user_name) eqn:Hfile.
    + rewrite Hremove. cbn. apply lookup_delete_eq.
    + cbn. exact Hfile.
  - intros Hfile. unfold TeamCacheManager.invalidateCache, TeamCacheManager.pathExists.
    rewrite Hfile. reflexivity.
Qed.

Lemma invalidate_then_get_witness :
  TeamCacheManager.getCachedTeams Samples.join TeamCacheManager.default
    (snd (TeamCacheManager.invalidateCache Samples.join TeamCacheManager.default
            Fixtures.healthy (Samples.cache_with (Parsed (to_json Samples.bobs_record)))
            "bob"))
    2000 "bob"
  = Returned None.
Proof.
  apply (proj1 (invalidate_then_get Samples.join TeamCacheManager.default Fixtures.healthy
                  (Samples.cache_with (Parsed (to_json Samples.bobs_record))) 2000 "bob")).
  reflexivity.
Defined.

(** ** Paging *)

Lemma fetchAllFrom_continues {A : Type} (list_page : nat -> Completion (Octokit.Page A))
    (pages : nat -> Octokit.Page A) (count : nat) :
  forall (first : nat) (all : list A) (fuel : nat),
    (forall i, (first <= i < first + count)%nat ->
       list_page i = Returned (pages i)
       /\ Octokit.data (pages i) <> []
       /\ GitHubClientMethods.isLastPage (Octokit.link (pages i)) = false) ->
    GitHubClientMethods.fetchAllFrom list_page (count + fuel) first all
    = GitHubClientMethods.fetchAllFrom list_page fuel (first + count)
        (all ++ flat_map (fun i => Octokit.data (pages i)) (seq first count))%list.
Proof.
  induction count as [| count IH]; intros first all fuel Hpages.
  - cbn. rewrite Nat.add_0_r, app_nil_r. reflexivity.
  - cbn [Nat.add GitHubClientMethods.fetchAllFrom seq flat_map].
    destruct (Hpages first ltac:(lia)) as (-> & Hdata & ->).
    destruct (Octokit.data (pages first)) as [| x xs] eqn:E; [congruence |].
    cbn [length Nat.eqb]. rewrite IH.
    + rewrite <- app_assoc. f_equal. lia.
    + intros i Hi. apply Hpages. lia.
Qed.

(** X14.  The paging loop gathers the pages in order and stops at the
    first page that is empty or announces no next page: if pages 1 to
    [last] are answered, those before [last] are not empty and announce a
    successor, and page [last] is empty or announces none, then with room
    for [last] rounds the loop returns the entries of pages 1 to [last],
    concatenated. *)
Theorem fetchAll_gathers_pages {A : Type} (list_page : nat -> Completion (Octokit.Page A))
    (pages : nat -> Octokit.Page A) (last fuel : nat) :
  (1 <= last <= fuel)%nat ->
  (forall i, (1 <= i <= last)%nat -> list_page i = Returned (pages i)) ->
  (forall i, (1 <= i < last)%nat ->
     Octokit.data (pages i) <> []
     /\ GitHubClientMethods.isLastPage (Octokit.link (pages i)) = false) ->
  Octokit.data (pages last) = []
  \/ GitHubClientMethods.isLastPage (Octokit.link (pages last)) = true ->
  GitHubClientMethods.fetchAll list_page fuel
  = Some (Returned (flat_map (fun i => Octokit.data (pages i)) (seq 1 last))).
Proof.
  intros Hlast Hanswered Hbefore Hstop. unfold GitHubClientMethods.fetchAll.
  replace fuel with ((last - 1) + S (fuel - last))%nat by lia.
  rewrite (fetchAllFrom_continues list_page pages (last - 1)).
  2: { intros i Hi. split; [apply Hanswered; lia | apply Hbefore; lia]. }
  replace (1 + (last - 1))%nat with last by lia.
  replace (seq 1 last) with (seq 1 (last - 1) ++ [last])%list.
  2: { replace last with (S (last - 1)) at 3 by lia. rewrite seq_S. f_equal. f_equal. lia. }
  rewrite flat_map_app. cbn [flat_map app GitHubClientMethods.fetchAllFrom].
  rewrite (Hanswered last) by lia. rewrite app_nil_r.
  destruct (Octokit.data (pages last)) as [| x xs] eqn:E.
  - cbn. rewrite app_nil_r. reflexivity.
  - cbn [length Nat.eqb]. destruct Hstop as [Hempty | ->]; [discriminate |]. reflexivity.
Qed.

Lemma fetchAll_gathers_pages_witness :
  GitHubClientMethods.fetchAll (fun page => Returned (Fixtures.org_pages page)) 5
  = Some (Returned [Samples.acme; Fixtures.globex]).
Proof.
  apply (fetchAll_gathers_pages (fun page => Returned (Fixtures.org_pages page))
           Fixtures.org_pages 2 5).
  - lia.
  - reflexivity.
  - intros i Hi. assert (i = 1%nat) as -> by lia. split; [discriminate | reflexivity].
  - right. reflexivity.
Defined.

(** X15.  A failing page fails the whole listing: if the pages before
    page [bad] keep the loop going and page [bad] throws, the loop throws
    that error and the entries gathered so far are not returned. *)
Theorem fetchAll_fails_with_page {A : Type} (list_page : nat -> Completion (Octokit.Page A))
    (pages : nat -> Octokit.Page A) (bad fuel : nat) (e : string) :
  (1 <= bad <= fuel)%nat ->
  (forall i, (1 <= i < bad)%nat ->
     list_page i = Returned (pages i)
     /\ Octokit.data (pages i) <> []
     /\ GitHubClientMethods.isLastPage (Octokit.link (pages i)) = false) ->
  list_page bad = Thrown e ->
  GitHubClientMethods.fetchAll list_page fuel = Some (Thrown e).
Proof.
  intros Hbad Hbefore Hthrown. unfold GitHubClientMethods.fetchAll.
  replace fuel with ((bad - 1) + S (fuel - bad))%nat by lia.
  rewrite (fetchAllFrom_continues list_page pages (bad - 1)).
  2: { intros i Hi. apply Hbefore. lia. }
  replace (1 + (bad - 1))%nat with bad by lia.
  cbn [GitHubClientMethods.fetchAllFrom]. rewrite Hthrown. reflexivity.
Qed.

Lemma fetchAll_fails_with_page_witness :
  GitHubClientMethods.fetchAll Fixtures.flaky_orgs 5 = Some (Thrown "HttpError: 502").
Proof.
  apply (fetchAll_fails_with_page Fixtures.flaky_orgs Fixtures.org_pages 2 5
           "HttpError: 502").
  - lia.
  - intros i Hi. assert (i = 1%nat) as -> by lia.
    split; [reflexivity | split; [discriminate | reflexivity]].
  - reflexivity.
Defined.

(** ** Resolving the teams *)

Lemma getCachedTeams_returns (path_join : string -> string -> string)
    (self : TeamCacheManager.t) (fs : gmap string CacheFile) (now : Z) (user_name : string) :
  exists result,
    TeamCacheManager.getCachedTeams path_join self fs now user_name = Returned result.
Proof.
  unfold TeamCacheManager.getCachedTeams, try_catch.
  destruct (TeamCacheManager.getCachedTeams_body path_join self fs now user_name); eauto.
Qed.

(** The three ways [getUserTeams] can end: served from the cache; the
    organizations cannot be listed; fetched and saved. *)
Lemma getUserTeams_inv (path_join : string -> string -> string) (api : Octokit.t)
    (cacheManager : TeamCacheManager.t) (io : DiskIO) (fuel : nat)
    (fs : gmap string CacheFile) (now later : Z) (user_name : string) (invalidate : bool)
    (r : Completion (list GitHubTeam)) (fs' : gmap string CacheFile) :
  GitHubClientMethods.getUserTeams path_join api cacheManager io fuel fs now later
    user_name invalidate = Some (r, fs') ->
  let fs0 :=
    if invalidate
    then snd (TeamCacheManager.invalidateCache path_join cacheManager io fs user_name)
    else fs in
  (exists cached,
     invalidate = false
     /\ TeamCacheManager.getCachedTeams path_join cacheManager fs now user_name
        = Returned (Some cached)
     /\ r = Returned cached /\ fs' = fs)
  \/ ((invalidate = true
       \/ TeamCacheManager.getCachedTeams path_join cacheManager fs now user_name
          = Returned None)
      /\ ((exists e,
             GitHubClientMethods.fetchOrgs api fuel user_name = Some (Thrown e)
             /\ r = Thrown e /\ fs' = fs0)
          \/ (exists orgs fetched,
                GitHubClientMethods.fetchOrgs api fuel user_name = Some (Returned orgs)
                /\ GitHubClientMethods.teamsOfOrgs api fuel user_name orgs = Some fetched
                /\ r = Returned fetched
                /\ fs' = snd (TeamCacheManager.saveTeamsToCache path_join cacheManager io
                                fs0 later user_name fetched)))).
Proof.
  cbv zeta. unfold GitHubClientMethods.getUserTeams.
  assert (forall fs1,
            match GitHubClientMethods.fetchOrgs api fuel user_name with
            | None => None
            | Some (Thrown e) => Some (Thrown e, fs1)
            | Some (Returned orgs) =>
                match GitHubClientMethods.teamsOfOrgs api fuel user_name orgs with
                | None => None
                | Some allTeams =>
                    let '(_, fs2) :=
                      TeamCacheManager.saveTeamsToCache path_join cacheManager io fs1 later
                        user_name allTeams in
                    Some (Returned allTeams, fs2)
                end
            end = Some (r, fs') ->
            (exists e,
               GitHubClientMethods.fetchOrgs api fuel user_name = Some (Thrown e)
               /\ r = Thrown e /\ fs' = fs1)
            \/ (exists orgs fetched,
                  GitHubClientMethods.fetchOrgs api fuel user_name = Some (Returned orgs)
                  /\ GitHubClientMethods.teamsOfOrgs api fuel user_name orgs = Some fetched
                  /\ r = Returned fetched
                  /\ fs' = snd (TeamCacheManager.saveTeamsToCache path_join cacheManager io
                                  fs1 later user_name fetched))) as Hfresh.
  { intros fs1 H.
    destruct (GitHubClientMethods.fetchOrgs api fuel user_name) as [[orgs | e] |] eqn:Horgs;
      [| | discriminate].
    - destruct (GitHubClientMethods.teamsOfOrgs api fuel user_name orgs) as [fetched |]
        eqn:Hteams; [| discriminate].
      right. exists orgs, fetched.
      destruct (TeamCacheManager.saveTeamsToCache _ _ _ _ _ _ _) as [u fs2].
      injection H as <- <-. repeat split; [exact Hteams].
    - left. exists e. injection H as <- <-. repeat split. }
  destruct invalidate; cbn [negb].
  - destruct (TeamCacheManager.invalidateCache _ _ _ _ _) as [u fs1]. cbn [snd].
    intros H. right. split; [left; reflexivity | apply Hfresh, H].
  - destruct (getCachedTeams_returns path_join cacheManager fs now user_name)
      as [[cached |] ->].
    + intros H. injection H as <- <-. left. exists cached. repeat split; reflexivity.
    + intros H. right. split; [right; reflexivity | apply Hfresh, H].
Qed.

Lemma getUserTeams_hit (path_join : string -> string -> string) (api : Octokit.t)
    (cacheManager : TeamCacheManager.t) (io : DiskIO) (fuel : nat)
    (fs : gmap string CacheFile) (now later : Z) (user_name : string) (record : TeamCache) :
  fs !! TeamCacheManager.getCacheFilePath path_join cacheManager user_name
    = Some (Parsed (to_json record)) ->
  username record = user_name ->
  now - timestamp record <= TeamCacheManager.cacheTTL cacheManager ->
  GitHubClientMethods.getUserTeams path_join api cacheManager io fuel fs now later
    user_name false
  = Some (Returned (teams record), fs).
Proof.
  intros Hfile Htag Hage. unfold GitHubClientMethods.getUserTeams. cbn [negb].
  rewrite (get_parsed _ _ _ _ _ _ Hfile).
  cbn [to_json json_timestamp json_username json_teams js_sub js_gt].
  assert (js_strict_ne (Some (username record)) user_name = false) as ->
    by (apply js_strict_ne_false; congruence).
  destruct (Z.gtb_spec (now - timestamp record) (TeamCacheManager.cacheTTL cacheManager));
    [lia | reflexivity].
Qed.

(** X16.  A fresh record of the user is served without a remote call and
    without touching the disk: with no invalidation asked, the answer is
    the record's teams and the cache directory is unchanged, for every
    API, every disk and every bound. *)
Theorem cache_hit_skips_the_api (path_join : string -> string -> string) (api : Octokit.t)
    (cacheManager : TeamCacheManager.t) (io : DiskIO) (fuel : nat)
    (fs : gmap string CacheFile) (now later : Z) (user_name : string) (record : TeamCache) :
  fs !! TeamCacheManager.getCacheFilePath path_join cacheManager user_name
    = Some (Parsed (to_json record)) ->
  username record = user_name ->
  now - timestamp record <= TeamCacheManager.cacheTTL cacheManager ->
  GitHubClientMethods.getUserTeams path_join api cacheManager io fuel fs now later
    user_name false
  = Some (Returned (teams record), fs).
Proof. apply getUserTeams_hit. Qed.

Lemma cache_hit_skips_the_api_witness :
  GitHubClientMethods.getUserTeams Samples.join Fixtures.dead_api TeamCacheManager.default
    Fixtures.broken 0 (Samples.cache_with (Parsed (to_json Samples.bobs_record)))
    2000 2001 "bob" false
  = Some (Returned [Samples.core],
          Samples.cache_with (Parsed (to_json Samples.bobs_record))).
Proof.
  apply (cache_hit_skips_the_api Samples.join Fixtures.dead_api TeamCacheManager.default
           Fixtures.broken 0 (Samples.cache_with (Parsed (to_json Samples.bobs_record)))
           2000 2001 "bob" Samples.bobs_record).
  - vm_compute. reflexivity.
  - reflexivity.
  - vm_compute. discriminate.
Defined.

(** X17.  What a fetch saves, the next call serves.  If a call that did
    not answer from the cache returns teams and the disk took the write,
    then any call within the ttl of that write, without invalidation,
    returns the same teams from the cache, whatever the API would answer
    by then. *)
Theorem fetched_teams_are_served_next (path_join : string -> string -> string)
    (api api' : Octokit.t) (cacheManager : TeamCacheManager.t) (io io' : DiskIO)
    (fuel fuel' : nat) (fs fs' : gmap string CacheFile) (now later now' later' : Z)
    (user_name : string) (invalidate : bool) (fetched : list GitHubTeam) :
  GitHubClientMethods.getUserTeams path_join api cacheManager io fuel fs now later
    user_name invalidate = Some (Returned fetched, fs') ->
  invalidate = true
  \/ TeamCacheManager.getCachedTeams path_join cacheManager fs now user_name
     = Returned None ->
  ensureDir io = Returned tt ->
  writeJson io = Done ->
  now' - later <= TeamCacheManager.cacheTTL cacheManager ->
  GitHubClientMethods.getUserTeams path_join api' cacheManager io' fuel' fs' now' later'
    user_name false
  = Some (Returned fetched, fs').
Proof.
  intros Hfirst Hmiss Hdir Hwrite Hage.
  apply getUserTeams_inv in Hfirst. cbv zeta in Hfirst.
  destruct Hfirst as [(cached & Hflag & Hhit & _) | (_ & [(e & _ & He & _) | Hsaved])].
  - destruct Hmiss; congruence.
  - discriminate.
  - destruct Hsaved as (orgs & ts & _ & _ & Hr & ->). injection Hr as <-.
    rewrite (save_success _ _ _ _ _ _ _ _ Hdir Hwrite). cbn [snd].
    apply (getUserTeams_hit path_join api' cacheManager io' fuel' _ now' later'
             user_name {| teams := fetched; timestamp := later; username := user_name |}).
    + apply lookup_insert_eq.
    + reflexivity.
    + exact Hage.
Qed.

(** Bob's first call, with invalidation, fetches ["Core"] and saves it at
    time 2001; his second call, an hour later and with the API down, is
    served from the cache. *)
Lemma fetched_teams_are_served_next_witness :
  GitHubClientMethods.getUserTeams Samples.join Fixtures.dead_api TeamCacheManager.default
    Fixtures.broken 0
    (Samples.cache_with
       (Parsed (to_json {| teams := [Samples.core]; timestamp := 2001; username := "bob" |})))
    3602001 3602002 "bob" false
  = Some (Returned [Samples.core],
          Samples.cache_with
            (Parsed (to_json {| teams := [Samples.core]; timestamp := 2001;
                                username := "bob" |}))).
Proof.
  apply (fetched_teams_are_served_next Samples.join Fixtures.bobs_api Fixtures.dead_api
           TeamCacheManager.default Fixtures.healthy Fixtures.broken 5 0
           (Samples.cache_with (Parsed (to_json Samples.alices_record)))
           _ 2000 2001 3602001 3602002 "bob" true [Samples.core]).
  - vm_compute. reflexivity.
  - left. reflexivity.
  - reflexivity.
  - reflexivity.
  - vm_compute. discriminate.
Defined.



Lemma memberTeam_sound (api : Octokit.t) (user_name : string) (org : Organization)
    (team : Octokit.Team) (t : GitHubTeam) :
  In t (GitHubClientMethods.memberTeam api user_name org team) ->
  organization t = {| org_login := org_login org; org_id := org_id org |}
  /\ slug t = Octokit.slug team
  /\ Octokit.getMembershipForUserInOrg api (org_login org) (Octokit.slug team) user_name
     = Returned 200.
Proof.
  unfold GitHubClientMethods.memberTeam.
  destruct (Octokit.getMembershipForUserInOrg api _ _ _) as [status | e]; [| intros []].
  destruct (Z.eqb_spec status 200) as [-> | _]; [| intros []].
  intros [<- | []]. auto.
Qed.

Lemma teamsOfOrgs_sound (api : Octokit.t) (fuel : nat) (user_name : string)
    (orgs : list Organization) :
  forall fetched t,
    GitHubClientMethods.teamsOfOrgs api fuel user_name orgs = Some fetched ->
    In t fetched ->
    (exists org, In org orgs
                 /\ organization t = {| org_login := org_login org; org_id := org_id org |})
    /\ Octokit.getMembershipForUserInOrg api (org_login (organization t)) (slug t) user_name
       = Returned 200.
Proof.
  induction orgs as [| org rest IH]; intros fetched t Hfetched Hin; cbn in Hfetched.
  - injection Hfetched as <-. destruct Hin.
  - destruct (GitHubClientMethods.fetchAllTeamsForOrg api fuel (org_login org))
      as [listed |]; [| discriminate].
    destruct (GitHubClientMethods.teamsOfOrgs api fuel user_name rest) as [others |];
      [| discriminate].
    injection Hfetched as <-. apply in_app_or in Hin as [Hhere | Hothers].
    + destruct listed as [allOrgTeams | e]; [| destruct Hhere].
      unfold GitHubClientMethods.memberTeams in Hhere.
      apply in_flat_map in Hhere as (team & _ & Hteam).
      apply memberTeam_sound in Hteam as (Horg & Hslug & Hstatus).
      split; [exists org; split; [left; reflexivity | exact Horg] |].
      rewrite Horg, Hslug. exact Hstatus.
    + destruct (IH others t eq_refl Hothers) as [(org' & Horg' & Heq) Hstatus].
      split; [exists org'; split; [right; exact Horg' | exact Heq] | exact Hstatus].
Qed.

(** X19.  Every team a fetch returns is one the API confirmed: for a call
    that did not answer from the cache, each returned team's membership
    call for the user answered with status 200. *)
Theorem fetched_teams_are_memberships (path_join : string -> string -> string)
    (api : Octokit.t) (cacheManager : TeamCacheManager.t) (io : DiskIO) (fuel : nat)
    (fs fs' : gmap string CacheFile) (now later : Z) (user_name : string)
    (invalidate : bool) (fetched : list GitHubTeam) (team : GitHubTeam) :
  GitHubClientMethods.getUserTeams path_join api cacheManager io fuel fs now later
    user_name invalidate = Some (Returned fetched, fs') ->
  invalidate = true
  \/ TeamCacheManager.getCachedTeams path_join cacheManager fs now user_name
     = Returned None ->
  In team fetched ->
  Octokit.getMembershipForUserInOrg api (org_login (organization team)) (slug team)
    user_name = Returned 200.
Proof.
  intros Hcall Hmiss Hin. apply getUserTeams_inv in Hcall. cbv zeta in Hcall.
  destruct Hcall as [(cached & Hflag & Hhit & _) | (_ & [(e & _ & He & _) | Hok])].
  - destruct Hmiss; congruence.
  - discriminate.
  - destruct Hok as (orgs & ts & _ & Hteams & Hr & _). injection Hr as <-.
    apply (teamsOfOrgs_sound api fuel user_name orgs fetched team Hteams Hin).
Qed.

Lemma fetched_teams_are_memberships_witness :
  Octokit.getMembershipForUserInOrg Fixtures.bobs_api
    (org_login (organization Samples.core)) (slug Samples.core) "bob" = Returned 200.
Proof.
  apply (fetched_teams_are_memberships Samples.join Fixtures.bobs_api
           TeamCacheManager.default Fixtures.broken 5
           (Samples.cache_with (Parsed (to_json Samples.bobs_record)))
           (empty : gmap string CacheFile)
           2000 2001 "bob" true [Samples.core] Samples.core).
  - vm_compute. reflexivity.
  - left. reflexivity.
  - left. reflexivity.
Defined.

(** X20.  With invalidation asked the answer never comes from the cache:
    what [getUserTeams] settles to is the same whatever the cache
    directory holds and whatever the time of the call. *)
Theorem invalidation_ignores_the_cache (path_join : string -> string -> string)
    (api : Octokit.t) (cacheManager : TeamCacheManager.t) (io : DiskIO) (fuel : nat)
    (fs fs' : gmap string CacheFile) (now now' later : Z) (user_name : string) :
  option_map fst
    (GitHubClientMethods.getUserTeams path_join api cacheManager io fuel fs now later
       user_name true)
  = option_map fst
      (GitHubClientMethods.getUserTeams path_join api cacheManager io fuel fs' now' later
         user_name true).
Proof.
  unfold GitHubClientMethods.getUserTeams. cbn [negb].
  destruct (TeamCacheManager.invalidateCache path_join cacheManager io fs user_name)
    as [u fs1].
  destruct (TeamCacheManager.invalidateCache path_join cacheManager io fs' user_name)
    as [u' fs1'].
  destruct (GitHubClientMethods.fetchOrgs api fuel user_name) as [[orgs | e] |];
    [| reflexivity | reflexivity].
  destruct (GitHubClientMethods.teamsOfOrgs api fuel user_name orgs) as [fetched |];
    [| reflexivity].
  destruct (TeamCacheManager.saveTeamsToCache _ _ _ fs1 _ _ _).
  destruct (TeamCacheManager.saveTeamsToCache _ _ _ fs1' _ _ _).
  reflexivity.
Qed.

(** ** Reading a pull request out of a URL *)

#[local] Arguments String.append : simpl nomatch.


Lemma strip_inv (literal s rest : string) :
  GitHubClientMethods.strip literal s = Some rest -> s = literal +:+ rest.
Proof.
  revert s. induction literal as [| a literal IH]; intros s H;
    cbn -[Ascii.eqb] in H.
  - destruct s; injection H as <-; reflexivity.
  - destruct s as [| b s]; [discriminate |].
    destruct (Ascii.eqb_spec a b) as [<- | _]; [| discriminate].
    cbn. f_equal. apply IH, H.
Qed.


Lemma span_inv (keep : ascii -> bool) (s run after : string) :
  GitHubClientMethods.span keep s = (run, after) ->
  s = run +:+ after
  /\ forallb keep (list_ascii_of_string run) = true
  /\ starts_without keep after.
Proof.
  revert run after. induction s as [| c s IH]; intros run after H; cbn in H.
  - injection H as <- <-. cbn. auto.
  - destruct (keep c) eqn:Hc.
    + destruct (GitHubClientMethods.span keep s) as [run' after'].
      injection H as <- <-. destruct (IH run' after' eq_refl) as (-> & Hrun & Hafter).
      cbn. rewrite Hc. auto.
    + injection H as <- <-. cbn. auto.
Qed.

Lemma parse_digits_nonneg (s : string) :
  forall value,
    forallb GitHubClientMethods.is_digit (list_ascii_of_string s) = true ->
    0 <= value -> 0 <= GitHubClientMethods.parse_digits s value.
Proof.
  induction s as [| c s IH]; intros value Hdigits Hvalue; cbn in *; [exact Hvalue |].
  apply andb_true_iff in Hdigits as [Hc Hdigits]. apply IH; [exact Hdigits |].
  unfold GitHubClientMethods.is_digit in Hc. unfold GitHubClientMethods.digit_value.
  apply andb_true_iff in Hc as [Hlow _]. apply Nat.leb_le in Hlow. lia.
Qed.





Lemma match_here_inv (s : string) (found : GitHubClientMethods.PullRequestInfo) :
  GitHubClientMethods.match_here s = Some found ->
  (exists after,
     s = "/repos/" +:+ GitHubClientMethods.owner found +:+ "/"
         +:+ GitHubClientMethods.repo found +:+ "/pulls/" +:+ after)
  /\ GitHubClientMethods.owner found <> ""
  /\ forallb (fun c => negb (GitHubClientMethods.is_slash c))
       (list_ascii_of_string (GitHubClientMethods.owner found)) = true
  /\ GitHubClientMethods.repo found <> ""
  /\ forallb (fun c => negb (GitHubClientMethods.is_slash c))
       (list_ascii_of_string (GitHubClientMethods.repo found)) = true
  /\ 0 <= GitHubClientMethods.pullNumber found.
Proof.
  unfold GitHubClientMethods.match_here. intros H.
  destruct (GitHubClientMethods.strip "/repos/" s) as [s1 |] eqn:E1; [| discriminate].
  apply strip_inv in E1.
  destruct (GitHubClientMethods.span _ s1) as [g1 s2] eqn:E2.
  apply span_inv in E2 as (-> & Hg1 & _).
  destruct (String.eqb_spec g1 "") as [| Hne1]; [discriminate |].
  destruct (GitHubClientMethods.strip "/" s2) as [s3 |] eqn:E3; [| discriminate].
  apply strip_inv in E3.
  destruct (GitHubClientMethods.span _ s3) as [g2 s4] eqn:E4.
  apply span_inv in E4 as (-> & Hg2 & _).
  destruct (String.eqb_spec g2 "") as [| Hne2]; [discriminate |].
  destruct (GitHubClientMethods.strip "/pulls/" s4) as [s5 |] eqn:E5; [| discriminate].
  apply strip_inv in E5.
  destruct (GitHubClientMethods.span GitHubClientMethods.is_digit s5) as [g3 s6] eqn:E6.
  apply span_inv in E6 as (_ & Hg3 & _).
  destruct (String.eqb g3 ""); [discriminate |].
  injection H as <-. cbn [GitHubClientMethods.owner GitHubClientMethods.repo
                            GitHubClientMethods.pullNumber].
  split; [exists s5; subst; reflexivity |].
  repeat split; try assumption.
  apply parse_digits_nonneg; [exact Hg3 | lia].
Qed.

(** X22.  What [extractPullRequestInfo] returns is in the URL.  When it
    answers, the URL holds the text "/repos/OWNER/REPO/pulls/" with the
    returned owner and repository in place; both are non-empty and hold
    no slash; and the returned pull number is not negative.  A URL
    without such a text (an issue's, a commit's) gives nothing. *)
Theorem extract_result_is_in_url (url : string)
    (found : GitHubClientMethods.PullRequestInfo) :
  GitHubClientMethods.extractPullRequestInfo url = Some found ->
  (exists before after,
     url = before +:+ "/repos/" +:+ GitHubClientMethods.owner found +:+ "/"
           +:+ GitHubClientMethods.repo found +:+ "/pulls/" +:+ after)
  /\ GitHubClientMethods.owner found <> ""
  /\ forallb (fun c => negb (GitHubClientMethods.is_slash c))
       (list_ascii_of_string (GitHubClientMethods.owner found)) = true
  /\ GitHubClientMethods.repo found <> ""
  /\ forallb (fun c => negb (GitHubClientMethods.is_slash c))
       (list_ascii_of_string (GitHubClientMethods.repo found)) = true
  /\ 0 <= GitHubClientMethods.pullNumber found.
Proof.
  induction url as [| c url IH]; cbn [GitHubClientMethods.extractPullRequestInfo].
  - destruct (GitHubClientMethods.match_here "") eqn:E; [| discriminate].
    intros H. injection H as <-.
    destruct (match_here_inv _ _ E) as [[after Hs] Hrest].
    split; [exists "", after; exact Hs | exact Hrest].
  - destruct (GitHubClientMethods.match_here (String c url)) eqn:E.
    + intros H. injection H as <-.
      destruct (match_here_inv _ _ E) as [[after Hs] Hrest].
      split; [exists "", after; exact Hs | exact Hrest].
    + intros H. destruct (IH H) as [(before & after & ->) Hrest].
      split; [exists (String c before), after; reflexivity | exact Hrest].
Qed.

Lemma extract_result_is_in_url_witness :
  (exists before after,
     "https://github.com/repos/acme/app/pulls/7"
     = before +:+ "/repos/" +:+ "acme" +:+ "/" +:+ "app" +:+ "/pulls/" +:+ after)
  /\ "acme" <> ""
  /\ forallb (fun c => negb (GitHubClientMethods.is_slash c)) (list_ascii_of_string "acme")
     = true
  /\ "app" <> ""
  /\ forallb (fun c => negb (GitHubClientMethods.is_slash c)) (list_ascii_of_string "app")
     = true
  /\ 0 <= 7.
Proof.
  apply (extract_result_is_in_url "https://github.com/repos/acme/app/pulls/7"
           {| GitHubClientMethods.owner := "acme"; GitHubClientMethods.repo := "app";
              GitHubClientMethods.pullNumber := 7 |}).
  vm_compute. reflexivity.
Defined.

(** An issue's URL gives nothing. *)
Example extract_issue_url :
  GitHubClientMethods.extractPullRequestInfo
    "https://api.github.com/repos/acme/app/issues/7" = None.
Proof. vm_compute. reflexivity. Qed.
